(** * Study-leave document generator: form validation and document template

    A shallow embedding of

    - the two listings of the [DocumentBuild] React component (the zod
      schema built by [createFormSchema], the submit handler [onSubmit]
      and the component state it reads and writes), and
    - the Typst template [api/template/document.typ] (its assertions on
      the inputs, its helper functions and the document it lays out),

    followed by the properties checked against them. *)

From Stdlib Require Import List NArith String Ascii Bool Lia PeanoNat.
Import ListNotations.

Local Open Scope string_scope.
Local Open Scope nat_scope.
Local Open Scope list_scope.

(** ** JavaScript strings

    A JavaScript string is a sequence of UTF-16 code units; [.length]
    counts code units and [===] compares them one by one. *)

Module Js.

Abbreviation jsstring := (list N) (only parsing).

(** A string literal of the source (ASCII only in this program). *)
Definition lit (s : string) : jsstring :=
  map N_of_ascii (list_ascii_of_string s).

Fixpoint eqb (a b : jsstring) : bool :=
  match a, b with
  | [], [] => true
  | x :: a', y :: b' => N.eqb x y && eqb a' b'
  | _, _ => false
  end.

(** ECMAScript WhiteSpace and LineTerminator code points, the characters
    [String.prototype.trim] strips; all of them are single code units. *)
Definition is_white_space (c : N) : bool :=
  (c =? 0x09)%N || (c =? 0x0A)%N || (c =? 0x0B)%N || (c =? 0x0C)%N
  || (c =? 0x0D)%N || (c =? 0x20)%N || (c =? 0xA0)%N || (c =? 0x1680)%N
  || ((0x2000 <=? c)%N && (c <=? 0x200A)%N)
  || (c =? 0x2028)%N || (c =? 0x2029)%N || (c =? 0x202F)%N
  || (c =? 0x205F)%N || (c =? 0x3000)%N || (c =? 0xFEFF)%N.

Fixpoint trimStart (s : jsstring) : jsstring :=
  match s with
  | [] => []
  | c :: s' => if is_white_space c then trimStart s' else s
  end.

Definition trimEnd (s : jsstring) : jsstring := rev (trimStart (rev s)).

Definition trim (s : jsstring) : jsstring := trimEnd (trimStart s).

(** [!v] for a value that is a string or [undefined]. *)
Definition falsy (v : option jsstring) : bool :=
  match v with
  | None => true
  | Some [] => true
  | Some (_ :: _) => false
  end.

(** [v || d] for a value that is a string or [undefined]. *)
Definition or_default (v : option jsstring) (d : jsstring) : jsstring :=
  match v with
  | Some (c :: s) => c :: s
  | _ => d
  end.

End Js.

(** ** The form schema (zod) *)

Module Form.

Import Js.

(** The object the schema parses: [z.infer<ReturnType<typeof createFormSchema>>].
    The three [.optional()] keys may be [undefined]. *)
Record FormData := {
  activity_type : jsstring;
  language : jsstring;
  name : jsstring;
  id : jsstring;
  degree : jsstring;
  course : option jsstring;
  professor : option jsstring;
  date : jsstring;
  city : jsstring;
  image_path : option jsstring
}.

(** The two issue codes this schema can raise: [too_small] comes from
    [.min(1)], [custom] from [ctx.addIssue] in the refinement. *)
Inductive ZodIssueCode := too_small | custom.

Record ZodIssue := {
  code : ZodIssueCode;
  message : string;
  path : list string
}.

(** [z.string().min(1, { message })] on the value stored under [key]:
    the check compares [.length] with the minimum; nothing is trimmed. *)
Definition string_min (minimum : nat) (msg key : string) (v : jsstring)
  : list ZodIssue :=
  if (List.length v <? minimum)%nat
  then [ {| code := too_small; message := msg; path := [key] |} ]
  else [].

(** [baseSchema]: the object schema reports the issues of all its keys,
    in the order of the shape. *)
Definition baseSchema (data : FormData) : list ZodIssue :=
  string_min 1 "Please select an activity type." "activity_type" (activity_type data)
  ++ string_min 1 "Please select a language." "language" (language data)
  ++ string_min 1 "Student name is required." "name" (name data)
  ++ string_min 1 "Student ID is required." "id" (id data)
  ++ string_min 1 "Degree program is required." "degree" (degree data)
  ++ string_min 1 "Date is required." "date" (date data)
  ++ string_min 1 "City name is required." "city" (city data).

(** [!v || v.trim() === ""] *)
Definition blank (v : option jsstring) : bool :=
  falsy v ||
  match v with
  | Some s => eqb (trim s) (lit "")
  | None => false
  end.

Definition addIssue (msg key : string) : list ZodIssue :=
  [ {| code := custom; message := msg; path := [key] |} ].

Section Schema.

(** The two listings of the component differ in one constant of the
    refinement: the activity value that makes [professor] required. *)
Variable office_hours_value : jsstring.

(** The callback given to [superRefine]. *)
Definition refinement (data : FormData) : list ZodIssue :=
  (if eqb (activity_type data) (lit "lectures")
   then if blank (course data)
        then addIssue "Course is required for lectures." "course" else []
   else [])
  ++
  (if eqb (activity_type data) (lit "oral-exam")
      || eqb (activity_type data) (lit "written-exam")
   then if blank (course data)
        then addIssue "Course is required for exams." "course" else []
   else [])
  ++
  (if eqb (activity_type data) office_hours_value
   then if blank (professor data)
        then addIssue "Professor is required for office hours." "professor" else []
   else []).

(** [createFormSchema(hasSubmitted)], as the function from the parsed
    object to the issues of the parse.  A failed [.min] leaves the object
    dirty, not aborted, so the refinement still runs after it. *)
Definition createFormSchema_with (hasSubmitted : bool) (data : FormData)
  : list ZodIssue :=
  if negb hasSubmitted
  then baseSchema data
  else baseSchema data ++ refinement data.

End Schema.

(** First listing of the component (lines 27-89). *)
Module DocumentBuild.
Definition createFormSchema : bool -> FormData -> list ZodIssue :=
  createFormSchema_with (lit "office-hours").
End DocumentBuild.

(** Second listing, the one that also saves answers in cookies
    (lines 486-548). *)
Module DocumentBuildSaved.
Definition createFormSchema : bool -> FormData -> list ZodIssue :=
  createFormSchema_with (lit "office-hours-meeting").
End DocumentBuildSaved.

Definition code_eqb (a b : ZodIssueCode) : bool :=
  match a, b with
  | too_small, too_small | custom, custom => true
  | _, _ => false
  end.

Definition path_is (key : string) (i : ZodIssue) : bool :=
  match path i with
  | [k] => String.eqb k key
  | _ => false
  end.

(** Some issue with code [c] is addressed to the field [key]. *)
Definition reports (c : ZodIssueCode) (key : string) (issues : list ZodIssue)
  : bool :=
  existsb (fun i => code_eqb (code i) c && path_is key i) issues.

(** Some issue, of whatever code, is addressed to the field [key]. *)
Definition error_on (key : string) (issues : list ZodIssue) : bool :=
  existsb (path_is key) issues.

(** The text of an optional field after trimming; an absent field has
    no text. *)
Definition trimmed (v : option jsstring) : jsstring :=
  match v with
  | Some s => trim s
  | None => []
  end.

Definition is_empty (s : jsstring) : bool :=
  match s with
  | [] => true
  | _ :: _ => false
  end.

(** The seven keys declared with [.min(1)] and how to read them, in the
    order of the shape. *)
Definition required_keys : list (string * (FormData -> jsstring)) :=
  [ ("activity_type", activity_type); ("language", language);
    ("name", name); ("id", id); ("degree", degree);
    ("date", date); ("city", city) ].

(** The activities for which the first listing asks for a course. *)
Definition course_activities : list string :=
  ["lectures"; "oral-exam"; "written-exam"].

(** The rules of the first listing as a table: each key with whether
    the record breaks its rule. *)
Definition rule_table (hasSubmitted : bool) (data : FormData)
  : list (string * bool) :=
  map (fun kg => (fst kg, is_empty (snd kg data))) required_keys
  ++ [ ("course",
        hasSubmitted
        && existsb (fun a => eqb (activity_type data) (lit a)) course_activities
        && is_empty (trimmed (course data)));
       ("professor",
        hasSubmitted
        && eqb (activity_type data) (lit "office-hours")
        && is_empty (trimmed (professor data))) ].

(** The keys of the errors object built from the issues, in order. *)
Definition error_paths (issues : list ZodIssue) : list (list string) :=
  map path issues.

End Form.

(** ** The request sent to the build service ([lib/api.ts]) *)

Module Api.

Import Js.

Record DocumentInputs := {
  language : jsstring;
  name : jsstring;
  id : jsstring;
  degree : jsstring;
  course : jsstring;
  professor : jsstring;
  date : jsstring;
  city : jsstring;
  image_path : jsstring;
  activity_type : jsstring
}.

End Api.

(** ** The component state and its submit handler (first listing)

    The component keeps two booleans in React state.  A render reads
    them into constants, hands [useForm] the resolver built from the
    constant [hasSubmittedOnce] and creates the closure [onSubmit].  A
    state setter changes the stored value and asks for a new render;
    updates are batched, so the render comes once the running handler
    has reached its next suspension, and until then the constants of the
    closure and the resolver the form holds stay as they are.

    [onSubmit], [handleSubmit] and [settled] below are the handlers
    themselves, for the render [r] they are given.  [step] and [run]
    follow one schedule of them, the orderly one: the form has rendered
    since the last change of state when a submission arrives, and the
    handler of that submission reaches [buildDocument] before anything
    else happens.  The schedules in which a submission reaches a render
    that has not seen the latest state, or handlers overlap at their
    awaits, are those of [Scheduling] further down. *)

Module Session.

Import Js.

Record Session := {
  hasSubmittedOnce : bool;
  isGenerating : bool;
  (** [formState.errors] of the form *)
  errors : list Form.ZodIssue;
  (** build requests sent and not yet settled, oldest first *)
  pending : list Api.DocumentInputs
}.

(** [useState(false)] twice, an empty errors object, nothing sent. *)
Definition mount : Session :=
  {| hasSubmittedOnce := false; isGenerating := false;
     errors := []; pending := [] |}.

Definition setHasSubmittedOnce (b : bool) (s : Session) : Session :=
  {| hasSubmittedOnce := b; isGenerating := isGenerating s;
     errors := errors s; pending := pending s |}.

Definition setIsGenerating (b : bool) (s : Session) : Session :=
  {| hasSubmittedOnce := hasSubmittedOnce s; isGenerating := b;
     errors := errors s; pending := pending s |}.

Definition setErrors (e : list Form.ZodIssue) (s : Session) : Session :=
  {| hasSubmittedOnce := hasSubmittedOnce s; isGenerating := isGenerating s;
     errors := e; pending := pending s |}.

Definition setPending (p : list Api.DocumentInputs) (s : Session) : Session :=
  {| hasSubmittedOnce := hasSubmittedOnce s; isGenerating := isGenerating s;
     errors := errors s; pending := p |}.

(** The constants of one render. *)
Record Render := {
  r_hasSubmittedOnce : bool;
  r_isGenerating : bool
}.

Definition render (s : Session) : Render :=
  {| r_hasSubmittedOnce := hasSubmittedOnce s;
     r_isGenerating := isGenerating s |}.

(** [resolver: zodResolver(createFormSchema(hasSubmittedOnce))] *)
Definition resolver (r : Render) (values : Form.FormData)
  : list Form.ZodIssue :=
  Form.DocumentBuild.createFormSchema (r_hasSubmittedOnce r) values.

Definition isEmptyObject (e : list Form.ZodIssue) : bool :=
  match e with
  | [] => true
  | _ :: _ => false
  end.

(** [form.trigger()]: runs the resolver the form holds on the current
    values, stores the errors and answers whether there are none. *)
Definition trigger (r : Render) (values : Form.FormData) (s : Session)
  : bool * Session :=
  let e := resolver r values in
  (isEmptyObject e, setErrors e s).

(** The object literal [documentInputs]. *)
Definition documentInputs (data : Form.FormData) : Api.DocumentInputs :=
  {| Api.language := Form.language data;
     Api.name := Form.name data;
     Api.id := Form.id data;
     Api.degree := Form.degree data;
     Api.course := or_default (Form.course data) (lit "");
     Api.professor := or_default (Form.professor data) (lit "");
     Api.date := Form.date data;
     Api.city := Form.city data;
     Api.image_path := or_default (Form.image_path data) (lit "imgs/unitn.jpg");
     Api.activity_type := Form.activity_type data |}.

(** [onSubmit] up to the point where it waits for [buildDocument]; the
    values of the form are the [data] that were just parsed. *)
Definition onSubmit (r : Render) (data : Form.FormData) (s : Session)
  : Session :=
  if r_isGenerating r then s
  else
    let '(go_on, s1) :=
      if negb (r_hasSubmittedOnce r)
      then
        let s' := setHasSubmittedOnce true s in
        let '(isValid, s'') := trigger r data s' in
        (isValid, s'')
      else (true, s) in
    if go_on
    then
      let s2 := setIsGenerating true s1 in
      setPending (pending s2 ++ [documentInputs data]) s2
    else s1.

(** [form.handleSubmit(onSubmit)]: validates with the resolver, stores
    the errors and calls [onSubmit] only when there are none. *)
Definition handleSubmit (r : Render) (values : Form.FormData) (s : Session)
  : Session :=
  let e := resolver r values in
  let s' := setErrors e s in
  if isEmptyObject e then onSubmit r values s' else s'.

(** The rest of [onSubmit], run when the oldest request settles: the
    download on success, [console.error] on failure, and in both cases
    the [finally] block. *)
Definition settled (ok : bool) (s : Session) : Session :=
  match pending s with
  | [] => s
  | _ :: rest => setIsGenerating false (setPending rest s)
  end.

Inductive Event :=
| Submit (values : Form.FormData)
| Settled (ok : bool).

(** One event of the orderly schedule: a submission is handled by the
    render of the state as it is, from the check of [handleSubmit] to
    the call of [buildDocument] in one go. *)
Definition step (s : Session) (ev : Event) : Session :=
  match ev with
  | Submit values => handleSubmit (render s) values s
  | Settled ok => settled ok s
  end.

(** A run of the orderly schedule. *)
Definition run (s : Session) (evs : list Event) : Session :=
  fold_left step evs s.

(** The flag is up exactly while a request is out, and no more than one
    request is out. *)
Definition guarded (s : Session) : Prop :=
  match pending s with
  | [] => isGenerating s = false
  | [_] => isGenerating s = true
  | _ :: _ :: _ => False
  end.

End Session.

(** ** Typst strings and values

    A Typst string is a sequence of Unicode code points stored as UTF-8;
    [.len()] is the length in bytes, [+] concatenates and [*] repeats. *)

Module Typst.

Abbreviation str := (list N) (only parsing).

Definition lit (s : string) : str :=
  map N_of_ascii (list_ascii_of_string s).

Fixpoint eqb (a b : str) : bool :=
  match a, b with
  | [], [] => true
  | x :: a', y :: b' => N.eqb x y && eqb a' b'
  | _, _ => false
  end.

(** Bytes of the UTF-8 encoding of one code point. *)
Definition utf8_width (c : N) : nat :=
  if (c <? 0x80)%N then 1
  else if (c <? 0x800)%N then 2
  else if (c <? 0x10000)%N then 3
  else 4.

Fixpoint len (s : str) : nat :=
  match s with
  | [] => 0
  | c :: s' => utf8_width c + len s'
  end.

(** [s * n] *)
Fixpoint repeat_str (s : str) (n : nat) : str :=
  match n with
  | O => []
  | S n' => s ++ repeat_str s n'
  end.

(** Errors that stop the compilation of the template. *)
Inductive Error :=
| AssertionFailed (message : string)
| NoMethod (receiver method : string)
| TomlParseError.

Inductive result (A : Type) :=
| Ok (a : A)
| Err (e : Error).

Arguments Ok {A} a.
Arguments Err {A} e.

Definition bind {A B} (r : result A) (k : A -> result B) : result B :=
  match r with
  | Ok a => k a
  | Err e => Err e
  end.

Notation "x <- r ;; k" := (bind r (fun x => k))
  (at level 61, r at next level, right associativity).
Notation "r ;;; k" := (bind r (fun _ => k))
  (at level 61, right associativity).

(** [assert(condition, message: ...)] *)
Definition assert (condition : bool) (message : string) : result unit :=
  if condition then Ok tt else Err (AssertionFailed message).

(** *** Regular expressions of the shape used by the template

    [^ a1 a2 ... an $] where an atom is [\d] or a literal character.
    The class [\d] is the Unicode decimal-digit class of the regex
    engine; its table is not in the repository and is left open. *)

Inductive Atom :=
| Digit
| Char (c : N).

Section Regex.

Variable is_Nd : N -> bool.

Definition atom_matches (a : Atom) (c : N) : bool :=
  match a with
  | Digit => is_Nd c
  | Char c' => N.eqb c c'
  end.

(** The whole string against the whole pattern (both anchors). *)
Fixpoint anchored_match (p : list Atom) (s : str) : bool :=
  match p, s with
  | [], [] => true
  | a :: p', c :: s' => atom_matches a c && anchored_match p' s'
  | _, _ => false
  end.

(** The dictionary [str.match] returns for a match: [start], [end],
    [text], [captures]; [none] when there is no match. *)
Record Match := {
  m_start : nat;
  m_end : nat;
  m_text : str;
  m_captures : list str
}.

Definition str_match (p : list Atom) (s : str) : option Match :=
  if anchored_match p s
  then Some {| m_start := 0; m_end := len s; m_text := s; m_captures := [] |}
  else None.

(** [.len()] of that dictionary: its four keys. *)
Definition dict_len (m : Match) : nat := 4.

End Regex.

(** [regex("^\d{4}-\d{2}-\d{2}$")] *)
Definition date_regex : list Atom :=
  [Digit; Digit; Digit; Digit; Char 45%N; Digit; Digit; Char 45%N; Digit; Digit].

(** *** Dates *)

Record datetime := {
  year : nat;
  month : nat;
  day : nat
}.

(** The ASCII digits, which every digit class contains. *)
Definition ascii_digit (c : N) : bool := ((48 <=? c) && (c <=? 57))%N.

(** An ASCII digit, the only kind TOML reads. *)
Definition digit_value (c : N) : option nat :=
  if ((48 <=? c) && (c <=? 57))%N then Some (N.to_nat (c - 48)) else None.

Definition is_leap_year (y : nat) : bool :=
  ((y mod 4 =? 0) && negb (y mod 100 =? 0)) || (y mod 400 =? 0).

Definition days_in_month (y m : nat) : nat :=
  match m with
  | 2 => if is_leap_year y then 29 else 28
  | 4 | 6 | 9 | 11 => 30
  | _ => 31
  end.

Definition number2 (a b : N) : option nat :=
  match digit_value a, digit_value b with
  | Some x, Some y => Some (10 * x + y)
  | _, _ => None
  end.

Definition number4 (a b c d : N) : option nat :=
  match number2 a b, number2 c d with
  | Some x, Some y => Some (100 * x + y)
  | _, _ => None
  end.

(** [toml(bytes("date = " + date_str)).date]: the TOML document has one
    key whose value must be a local date, four digits, two digits and two
    digits separated by hyphens; a day that does not exist is refused by
    the parser or leaves no date to display, and either way there is no
    document.  Anything else in [date_str] is not a date value. *)
Definition toml_date (date_str : str) : option datetime :=
  match date_str with
  | [y1; y2; y3; y4; h1; m1; m2; h2; d1; d2] =>
    if (N.eqb h1 45 && N.eqb h2 45)%bool then
      match number4 y1 y2 y3 y4, number2 m1 m2, number2 d1 d2 with
      | Some y, Some m, Some d =>
        if ((1 <=? m) && (m <=? 12) && (1 <=? d) && (d <=? days_in_month y m))%nat
        then Some {| year := y; month := m; day := d |}
        else None
      | _, _, _ => None
      end
    else None
  | _ => None
  end.

(** Decimal digits of a number, most significant first. *)
Fixpoint uint_digits (u : Decimal.uint) : str :=
  match u with
  | Decimal.Nil => []
  | Decimal.D0 u' => 48%N :: uint_digits u'
  | Decimal.D1 u' => 49%N :: uint_digits u'
  | Decimal.D2 u' => 50%N :: uint_digits u'
  | Decimal.D3 u' => 51%N :: uint_digits u'
  | Decimal.D4 u' => 52%N :: uint_digits u'
  | Decimal.D5 u' => 53%N :: uint_digits u'
  | Decimal.D6 u' => 54%N :: uint_digits u'
  | Decimal.D7 u' => 55%N :: uint_digits u'
  | Decimal.D8 u' => 56%N :: uint_digits u'
  | Decimal.D9 u' => 57%N :: uint_digits u'
  end.

(** A number written with at least [width] digits, padded with zeros:
    the default padding of the [day], [month] and [year] components. *)
Definition pad_zero (width n : nat) : str :=
  let ds := uint_digits (Nat.to_uint n) in
  repeat_str (lit "0") (width - List.length ds) ++ ds.

(** [when.display("[day]/[month]/[year]")] *)
Definition display_day_month_year (when : datetime) : str :=
  pad_zero 2 (day when) ++ lit "/" ++ pad_zero 2 (month when)
  ++ lit "/" ++ pad_zero 4 (year when).

End Typst.

(** ** The template [document.typ] *)

Module Template.

Import Typst.

(** A value read from the JSON inputs: a string, or [none] for null. *)
Abbreviation value := (option str) (only parsing).

(** [json(bytes(sys.inputs.inputs))], with the keys the template reads. *)
Record Inputs := {
  language : value;
  name : value;
  id : value;
  degree : value;
  course : value;
  professor : value;
  date : value;
  city : value;
  image_path : value;
  activity_type : value
}.

(** [v == "literal"] *)
Definition equals (v : value) (s : string) : bool :=
  match v with
  | Some a => eqb a (lit s)
  | None => false
  end.

(** [v + s]: [none] is neutral for [+]. *)
Definition plus (v : value) (s : str) : str :=
  match v with
  | Some a => a ++ s
  | None => s
  end.

(** [v != none and v.len() > 0] *)
Definition provided (v : value) : bool :=
  match v with
  | Some a => 0 <? len a
  | None => false
  end.

Definition activities : list string :=
  ["lectures"; "oral-exam"; "written-exam"; "office-hours"].

(** [activity in activities] *)
Definition in_activities (v : value) : bool :=
  existsb (equals v) activities.

(** Content of the document, as far as the template decides it; the
    translated texts are looked up by the [transl] package from files
    that are not part of the template and stay symbolic. *)
Inductive Inline :=
| Text (s : str)
| Transl (key : string) (args : list (string * value))
| Strong (body : Inline)
| Linebreak
| Box (body : str) (width_pt : nat).

(** The two marks the template writes: [[x]] and [[  ]]. *)
Inductive Mark := Checked | Unchecked.

Inductive Block :=
| HeaderGrid (left : Inline) (image : value)
| AlignRight (body : str)
| V (pt : nat)
| Smallcaps (body : Inline)
| Par (body : Inline)
| Item (mark : Mark) (body : list Inline)
| SetListIndent (pt : nat)
| SignatureGrid (caption : list Inline) (line : Inline).

(** *** Helper functions of the template *)

Definition date_with_city (city : value) (when : datetime) : str :=
  plus city (lit ", " ++ display_day_month_year when).

Definition field (txt : str) : Inline :=
  if len txt =? 0 then Text (repeat_str (lit "_") 35)
  else Box txt (10 * len txt).

Definition value_or_blank (v : value) : str :=
  match v with
  | None => repeat_str (lit "_") 20
  | Some a => if len a =? 0 then repeat_str (lit "_") 20 else a
  end.

Definition bit (b : bool) : nat := if b then 1 else 0.

Section Main.

Variable is_Nd : N -> bool.

(** The assertion on [date_str]: [.match] on [none] and [.len()] on the
    [none] of a failed match are errors of their own. *)
Definition check_date (date_str : value) : result unit :=
  match date_str with
  | None => Err (NoMethod "none" "match")
  | Some s =>
    match str_match is_Nd date_regex s with
    | None => Err (NoMethod "none" "len")
    | Some m =>
      assert (0 <? dict_len m) "Date must be in the format YYYY-MM-DD."
    end
  end.

(** [#let date = toml(bytes("date = " + date_str)).date] *)
Definition parse_date (date_str : value) : result datetime :=
  match date_str with
  | None => Err TomlParseError
  | Some s =>
    match toml_date s with
    | Some d => Ok d
    | None => Err TomlParseError
    end
  end.

(** Lines 33-84: the assertions, in the order of the file, and the date. *)
Definition preamble (i : Inputs) : result datetime :=
  assert (provided (name i)) "Name must be provided." ;;;
  assert (provided (id i)) "ID must be provided." ;;;
  assert (provided (degree i)) "Degree must be provided." ;;;
  check_date (date i) ;;;
  assert (provided (city i)) "City must be provided." ;;;
  assert (provided (image_path i)) "Image path must be provided." ;;;
  assert (provided (language i)) "Language must be provided." ;;;
  assert (in_activities (activity_type i))
    (String.append "Activity must be one of: " (String.concat ", " activities)) ;;;
  when <- parse_date (date i) ;;
  assert (bit (equals (activity_type i) "lectures")
          + bit (equals (activity_type i) "oral-exam")
          + bit (equals (activity_type i) "written-exam")
          + bit (equals (activity_type i) "office-hours") <=? 1)
    "At most one of lectures, oral-exam, written-exam, office-hours can be true." ;;;
  Ok when.

End Main.

(** Lines 134-145. *)
Definition lectures_section (i : Inputs) : list Block :=
  if equals (activity_type i) "lectures"
  then [ Item Checked [Strong (Transl "lectures" []); Linebreak];
         Par (Transl "lecture-description"
                [("course", Some (value_or_blank (course i)))]) ]
  else [ Item Unchecked [Strong (Transl "lectures" []); Linebreak];
         Par (Transl "lecture-description"
                [("course", Some (value_or_blank (course i)))]) ].

(** Lines 149-179. *)
Definition exams_section (i : Inputs) : list Block :=
  if equals (activity_type i) "written-exam"
  then [ Item Checked [Strong (Transl "exams" []); Linebreak];
         Par (Transl "exams-description" []);
         V 5; SetListIndent 15;
         Item Checked [Transl "written-exam" []];
         Item Unchecked [Transl "oral-exam" []];
         SetListIndent 0 ]
  else if equals (activity_type i) "oral-exam"
  then [ Item Checked [Strong (Transl "exams" []); Linebreak];
         Par (Transl "exams-description" []);
         V 5; SetListIndent 15;
         Item Unchecked [Transl "written-exam" []];
         Item Checked [Transl "oral-exam" []];
         SetListIndent 0 ]
  else [ Item Unchecked [Strong (Transl "exams" []); Linebreak];
         Par (Transl "exams-description" []);
         V 5; SetListIndent 15;
         Item Unchecked [Transl "written-exam" []];
         Item Unchecked [Transl "oral-exam" []];
         SetListIndent 0 ].

(** Lines 186-196. *)
Definition office_hours_section (i : Inputs) : list Block :=
  if equals (activity_type i) "office-hours"
  then [ Item Checked [Strong (Transl "office-hours" []); Linebreak];
         Par (Transl "office-hours-description"
                [("professor", Some (value_or_blank (professor i)))]) ]
  else [ Item Unchecked [Strong (Transl "office-hours" []); Linebreak];
         Par (Transl "office-hours-description"
                [("professor", Some (value_or_blank (professor i)))]) ].

(** Lines 116-205: the document, given the parsed date. *)
Definition body (i : Inputs) (when : datetime) : list Block :=
  [ HeaderGrid (Transl "disi" []) (image_path i);
    AlignRight (date_with_city (city i) when);
    V 40;
    Smallcaps (Transl "declaration" []);
    Par (Transl "student-data"
           [("name", name i); ("id", id i); ("degree", degree i)]);
    V 20 ]
  ++ lectures_section i
  ++ [ V 15 ]
  ++ exams_section i
  ++ [ Par (Transl "for-the-course" [("course", course i)]);
       V 15 ]
  ++ office_hours_section i
  ++ [ V 20;
       SignatureGrid
         [Transl "appointed-professor" []; Linebreak;
          Transl "signature-description" []]
         (field (lit "")) ].

(** The template as far as its own code decides: the assertions, the
    date and the content laid out.  [Ok] says that none of these stopped
    the template and gives the content; the typesetter can still refuse
    what it is handed afterwards, a [language] that [set text] does not
    take as a language code or an [image-path] it cannot read, and that
    is outside this function. *)
Definition document (is_Nd : N -> bool) (i : Inputs) : result (list Block) :=
  when <- preamble is_Nd i ;;
  Ok (body i when).

(** The inputs that pass every assertion and carry a date TOML reads. *)
Definition accepts (is_Nd : N -> bool) (i : Inputs) : bool :=
  provided (name i) && provided (id i) && provided (degree i)
  && match date i with
     | Some s => anchored_match is_Nd date_regex s
     | None => false
     end
  && provided (city i) && provided (image_path i) && provided (language i)
  && in_activities (activity_type i)
  && match date i with
     | Some s => match toml_date s with Some _ => true | None => false end
     | None => false
     end.

(** A date written as four, two and two ASCII digits with hyphens. *)
Definition year_month_day_shape (v : value) : bool :=
  match v with
  | Some s => anchored_match ascii_digit date_regex s
  | None => false
  end.

(** *** Reading the document back *)

(** The right-aligned line at the top. *)
Definition header_lines (doc : list Block) : list str :=
  flat_map (fun b => match b with AlignRight s => [s] | _ => [] end) doc.

(** The translation key that labels a checklist item. *)
Definition item_label (body : list Inline) : option string :=
  match body with
  | Strong (Transl key _) :: _ => Some key
  | Transl key _ :: _ => Some key
  | _ => None
  end.

(** The marks of the checklist items labelled [key], in order. *)
Definition marks_of (key : string) (doc : list Block) : list Mark :=
  flat_map (fun b =>
    match b with
    | Item m body =>
      match item_label body with
      | Some k => if String.eqb k key then [m] else []
      | None => []
      end
    | _ => []
    end) doc.

Definition is_checked (m : Mark) : bool :=
  match m with
  | Checked => true
  | Unchecked => false
  end.

(** How many items labelled with one of [keys] are checked. *)
Definition count_checked (keys : list string) (doc : list Block) : nat :=
  List.length (filter is_checked (flat_map (fun k => marks_of k doc) keys)).

(** The values passed under the argument [arg] to the translated
    paragraphs with key [key], in order. *)
Definition transl_arg (key arg : string) (doc : list Block) : list value :=
  flat_map (fun b =>
    match b with
    | Par (Transl k args) =>
      if String.eqb k key
      then map snd (filter (fun kv => String.eqb (fst kv) arg) args)
      else []
    | _ => []
    end) doc.

(** Every value passed under the argument [arg], whatever the key. *)
Definition occurrences (arg : string) (doc : list Block) : list value :=
  flat_map (fun b =>
    match b with
    | Par (Transl _ args) =>
      map snd (filter (fun kv => String.eqb (fst kv) arg) args)
    | _ => []
    end) doc.

(** A value that shows as nothing: [none] or the empty string. *)
Definition empty (v : value) : bool :=
  match v with
  | None => true
  | Some a => len a =? 0
  end.

End Template.

(** ** Records used in the examples *)

Module Examples.

(** The record of the scenario: lectures chosen, everything filled in
    except the course. *)
Definition lectures_without_course : Form.FormData :=
  {| Form.activity_type := Js.lit "lectures";
     Form.language := Js.lit "it";
     Form.name := Js.lit "Elena Rossi";
     Form.id := Js.lit "12345678";
     Form.degree := Js.lit "Computer Science";
     Form.course := Some (Js.lit "");
     Form.professor := Some (Js.lit "");
     Form.date := Js.lit "2024-01-01";
     Form.city := Js.lit "Trento";
     Form.image_path := Some (Js.lit "imgs/unitn.jpg") |}.

Definition with_activity (a : string) (d : Form.FormData) : Form.FormData :=
  {| Form.activity_type := Js.lit a;
     Form.language := Form.language d;
     Form.name := Form.name d;
     Form.id := Form.id d;
     Form.degree := Form.degree d;
     Form.course := Form.course d;
     Form.professor := Form.professor d;
     Form.date := Form.date d;
     Form.city := Form.city d;
     Form.image_path := Form.image_path d |}.

Definition with_name (n : string) (d : Form.FormData) : Form.FormData :=
  {| Form.activity_type := Form.activity_type d;
     Form.language := Form.language d;
     Form.name := Js.lit n;
     Form.id := Form.id d;
     Form.degree := Form.degree d;
     Form.course := Form.course d;
     Form.professor := Form.professor d;
     Form.date := Form.date d;
     Form.city := Form.city d;
     Form.image_path := Form.image_path d |}.

Definition with_course (c : string) (d : Form.FormData) : Form.FormData :=
  {| Form.activity_type := Form.activity_type d;
     Form.language := Form.language d;
     Form.name := Form.name d;
     Form.id := Form.id d;
     Form.degree := Form.degree d;
     Form.course := Some (Js.lit c);
     Form.professor := Form.professor d;
     Form.date := Form.date d;
     Form.city := Form.city d;
     Form.image_path := Form.image_path d |}.

Definition with_date (t : string) (d : Form.FormData) : Form.FormData :=
  {| Form.activity_type := Form.activity_type d;
     Form.language := Form.language d;
     Form.name := Form.name d;
     Form.id := Form.id d;
     Form.degree := Form.degree d;
     Form.course := Form.course d;
     Form.professor := Form.professor d;
     Form.date := Js.lit t;
     Form.city := Form.city d;
     Form.image_path := Form.image_path d |}.

(** Office hours chosen, professor left empty. *)
Definition office_hours_without_professor : Form.FormData :=
  with_activity "office-hours" lectures_without_course.

(** Office hours under the value of the second listing, professor left
    empty. *)
Definition office_hours_meeting_without_professor : Form.FormData :=
  with_activity "office-hours-meeting" lectures_without_course.


(** A name made of one space. *)
Definition name_of_one_space : Form.FormData :=
  with_name " " (with_course "Advanced Programming" lectures_without_course).

(** A date that is not a calendar date. *)
Definition date_in_words : Form.FormData :=
  with_date "tomorrow" (with_course "Advanced Programming" lectures_without_course).

(** No name and, for lectures, no course. *)
Definition no_name_no_course : Form.FormData :=
  with_name "" lectures_without_course.

(** What the template receives for office hours with no course. *)
Definition office_hours_inputs : Template.Inputs :=
  {| Template.language := Some (Typst.lit "it");
     Template.name := Some (Typst.lit "Elena Rossi");
     Template.id := Some (Typst.lit "12345678");
     Template.degree := Some (Typst.lit "Computer Science");
     Template.course := Some (Typst.lit "");
     Template.professor := Some (Typst.lit "Mario Bianchi");
     Template.date := Some (Typst.lit "2024-01-01");
     Template.city := Some (Typst.lit "Trento");
     Template.image_path := Some (Typst.lit "imgs/unitn.jpg");
     Template.activity_type := Some (Typst.lit "office-hours") |}.

(** The sample inputs written in the comment at the top of the template. *)
Definition sample_inputs : Template.Inputs :=
  {| Template.language := Some (Typst.lit "it");
     Template.name := Some (Typst.lit "Elena Rossi");
     Template.id := Some (Typst.lit "12345678");
     Template.degree := Some (Typst.lit "Computer Science");
     Template.course := Some (Typst.lit "Advanced Programming");
     Template.professor := Some (Typst.lit "Mario Bianchi");
     Template.date := Some (Typst.lit "2024-01-01");
     Template.city := Some (Typst.lit "Trento");
     Template.image_path := Some (Typst.lit "imgs/unitn.jpg");
     Template.activity_type := Some (Typst.lit "lectures") |}.

(** The sample inputs with a date that is not a calendar date. *)
Definition inputs_date_in_words : Template.Inputs :=
  {| Template.language := Some (Typst.lit "it");
     Template.name := Some (Typst.lit "Elena Rossi");
     Template.id := Some (Typst.lit "12345678");
     Template.degree := Some (Typst.lit "Computer Science");
     Template.course := Some (Typst.lit "Advanced Programming");
     Template.professor := Some (Typst.lit "Mario Bianchi");
     Template.date := Some (Typst.lit "tomorrow");
     Template.city := Some (Typst.lit "Trento");
     Template.image_path := Some (Typst.lit "imgs/unitn.jpg");
     Template.activity_type := Some (Typst.lit "lectures") |}.

End Examples.

(** ** What the form shows (the JSX of both listings)

    [selectedActivityType] is [form.watch("activity_type")], the current
    value of the field; the inputs for the course and the professor,
    with the [FormMessage] that displays their error, are rendered under
    these conditions only. *)

Module View.

Import Js.

(** A string used as a condition: the empty string is falsy. *)
Definition truthy (s : jsstring) : bool := negb (Form.is_empty s).

(** Lines 354-376 and 843-865. *)
Definition shows_course (selectedActivityType : jsstring) : bool :=
  truthy selectedActivityType
  && (eqb selectedActivityType (lit "lectures")
      || eqb selectedActivityType (lit "oral-exam")
      || eqb selectedActivityType (lit "written-exam")).

(** A field with nothing in it but white space, or not there at all. *)
Definition only_white_space (v : option jsstring) : bool :=
  match v with
  | Some s => forallb is_white_space s
  | None => true
  end.

Module DocumentBuild.
(** Lines 354, 379. *)
Definition shows_professor (selectedActivityType : jsstring) : bool :=
  truthy selectedActivityType
  && eqb selectedActivityType (lit "office-hours").
End DocumentBuild.

Module DocumentBuildSaved.
(** Lines 843, 868. *)
Definition shows_professor (selectedActivityType : jsstring) : bool :=
  truthy selectedActivityType
  && eqb selectedActivityType (lit "office-hours-meeting").
End DocumentBuildSaved.

End View.

(** ** Reading runs of the session *)

Module Requests.

Import Js.

(** A submission whose values the base schema accepts. *)
Definition passes_base (ev : Session.Event) : bool :=
  match ev with
  | Session.Submit values => Session.isEmptyObject (Form.baseSchema values)
  | Session.Settled _ => false
  end.

(** A request in which every field the template insists on is filled. *)
Definition complete (r : Api.DocumentInputs) : bool :=
  View.truthy (Api.language r) && View.truthy (Api.name r)
  && View.truthy (Api.id r) && View.truthy (Api.degree r)
  && View.truthy (Api.date r) && View.truthy (Api.city r)
  && View.truthy (Api.image_path r) && View.truthy (Api.activity_type r).

(** The flag [isGenerating] is never up before the first accepted
    submission. *)
Definition flagged (s : Session.Session) : Prop :=
  Session.isGenerating s = true -> Session.hasSubmittedOnce s = true.

End Requests.

(** ** Reading the layout *)

Module Layout.

Import Typst Template.

(** The block with its check mark, if it has one, taken off. *)
Definition unmark (b : Block) : Block :=
  match b with
  | Item _ body => Item Unchecked body
  | _ => b
  end.

(** The inputs with another activity. *)
Definition with_activity_type (a : value) (i : Inputs) : Inputs :=
  {| language := language i; name := name i; id := id i;
     degree := degree i; course := course i; professor := professor i;
     date := date i; city := city i; image_path := image_path i;
     activity_type := a |}.

End Layout.

(** ** Saved answers (second listing)

    The cookie helpers and the submit handler of the listing that keeps
    the student's answers in cookies.  The browser is reached through
    [document.cookie], [encodeURIComponent], [decodeURIComponent] and the
    clock; the two URI functions raise [URIError] on some arguments,
    which is [None] here. *)

Module Saved.

Import Js.

(** A JavaScript call that returns or throws. *)
Inductive completion (A : Type) :=
| Return (a : A)
| Throw.

Arguments Return {A} a.
Arguments Throw {A}.

Definition and_then {A B} (c : completion A) (k : A -> completion B)
  : completion B :=
  match c with
  | Return a => k a
  | Throw => Throw
  end.

(** [s.split(sep)] for a separator of one character: always at least
    one piece. *)
Fixpoint split (sep : N) (s : jsstring) : list jsstring :=
  match s with
  | [] => [[]]
  | c :: s' =>
    if N.eqb c sep then [] :: split sep s'
    else
      match split sep s' with
      | piece :: pieces => (c :: piece) :: pieces
      | [] => [[c]]
      end
  end.

Record SavedUserData := {
  name : jsstring;
  id : jsstring;
  degree : jsstring;
  city : jsstring;
  language : jsstring
}.

Section Browser.

(** [typeof window !== 'undefined'] and [typeof document !== 'undefined'] *)
Variable has_window : bool.
Variable has_document : bool.

Variable encodeURIComponent : jsstring -> option jsstring.
Variable decodeURIComponent : jsstring -> option jsstring.

(** [new Date(Date.now() + days * 24 * 60 * 60 * 1000).toUTCString()] at
    the time of the call. *)
Variable toUTCString_in_days : nat -> jsstring.

(** [setCookie]: the strings assigned to [document.cookie] so far, then
    the same with this assignment added, and whether the call returned
    ([false] when [encodeURIComponent] threw). *)
Definition setCookie (name value : jsstring) (days : nat)
  (assigned : list jsstring) : list jsstring * bool :=
  if negb has_window || negb has_document then (assigned, true)
  else
    let expires := toUTCString_in_days days in
    match encodeURIComponent value with
    | Some encoded =>
      (assigned ++ [name ++ lit "=" ++ encoded ++ lit "; expires=" ++ expires
                    ++ lit "; path=/; SameSite=Lax"], true)
    | None => (assigned, false)
    end.

(** The loop of [getCookie] over the pieces of [document.cookie]:
    [[key, value] = cookie.trim().split('=')], and [decodeURIComponent]
    of a [value] that is [undefined] decodes the text ["undefined"]. *)
Fixpoint find_cookie (name : jsstring) (cookies : list jsstring)
  : completion (option jsstring) :=
  match cookies with
  | [] => Return None
  | cookie :: rest =>
    match split 61 (trim cookie) with
    | key :: more =>
      if eqb key name
      then
        match decodeURIComponent
                match more with
                | value :: _ => value
                | [] => lit "undefined"
                end
        with
        | Some decoded => Return (Some decoded)
        | None => Throw
        end
      else find_cookie name rest
    | [] => find_cookie name rest
    end
  end.

(** [getCookie], reading [document.cookie] once. *)
Definition getCookie (document_cookie name : jsstring)
  : completion (option jsstring) :=
  if negb has_window || negb has_document then Return None
  else find_cookie name (split 59 document_cookie).

(** [loadSavedUserData] *)
Definition loadSavedUserData (document_cookie : jsstring)
  : completion SavedUserData :=
  if negb has_window
  then Return {| name := lit ""; id := lit ""; degree := lit "";
                 city := lit ""; language := lit "" |}
  else
    and_then (getCookie document_cookie (lit "student_name")) (fun n =>
    and_then (getCookie document_cookie (lit "student_id")) (fun i =>
    and_then (getCookie document_cookie (lit "student_degree")) (fun d =>
    and_then (getCookie document_cookie (lit "student_city")) (fun c =>
    and_then (getCookie document_cookie (lit "student_language")) (fun l =>
    Return {| name := or_default n (lit ""); id := or_default i (lit "");
              degree := or_default d (lit ""); city := or_default c (lit "");
              language := or_default l (lit "") |}))))).

(** One call after the other, stopping at the first that throws. *)
Definition then_set (name value : jsstring) (st : list jsstring * bool)
  : list jsstring * bool :=
  if snd st then setCookie name value 30 (fst st) else st.

(** [saveUserDataToCookies] *)
Definition saveUserDataToCookies (name id degree city language : jsstring)
  (assigned : list jsstring) : list jsstring * bool :=
  then_set (lit "student_language") language
    (then_set (lit "student_city") city
       (then_set (lit "student_degree") degree
          (then_set (lit "student_id") id
             (setCookie (lit "student_name") name 30 assigned)))).

(** The session of the second listing: the state of the component and
    the assignments made to [document.cookie]. *)
Record State := {
  session : Session.Session;
  assigned : list jsstring
}.

Definition mount : State :=
  {| session := Session.mount; assigned := [] |}.

(** [resolver: zodResolver(createFormSchema(hasSubmittedOnce))] *)
Definition resolver (r : Session.Render) (values : Form.FormData)
  : list Form.ZodIssue :=
  Form.DocumentBuildSaved.createFormSchema (Session.r_hasSubmittedOnce r) values.

Definition trigger (r : Session.Render) (values : Form.FormData)
  (s : Session.Session) : bool * Session.Session :=
  let e := resolver r values in
  (Session.isEmptyObject e, Session.setErrors e s).

(** [onSubmit] of the second listing up to the point where it waits for
    [buildDocument]; when saving the cookies throws, the [catch] and the
    [finally] blocks run at once and nothing is sent. *)
Definition onSubmit (r : Session.Render) (data : Form.FormData) (st : State)
  : State :=
  if Session.r_isGenerating r then st
  else
    let '(go_on, s1) :=
      if negb (Session.r_hasSubmittedOnce r)
      then
        let s' := Session.setHasSubmittedOnce true (session st) in
        let '(isValid, s'') := trigger r data s' in
        (isValid, s'')
      else (true, session st) in
    if go_on
    then
      let s2 := Session.setIsGenerating true s1 in
      let '(written, returned) :=
        saveUserDataToCookies (Form.name data) (Form.id data)
          (Form.degree data) (Form.city data) (Form.language data)
          (assigned st) in
      if returned
      then {| session := Session.setPending
                           (Session.pending s2 ++ [Session.documentInputs data]) s2;
              assigned := written |}
      else {| session := Session.setIsGenerating false s2;
              assigned := written |}
    else {| session := s1; assigned := assigned st |}.

Definition handleSubmit (r : Session.Render) (values : Form.FormData)
  (st : State) : State :=
  let e := resolver r values in
  let st' := {| session := Session.setErrors e (session st);
                assigned := assigned st |} in
  if Session.isEmptyObject e then onSubmit r values st' else st'.

(** One event of the orderly schedule, as for the first listing: the
    submission is handled by the render of the state as it is, in one
    go. *)
Definition step (st : State) (ev : Session.Event) : State :=
  match ev with
  | Session.Submit values => handleSubmit (Session.render (session st)) values st
  | Session.Settled ok =>
    {| session := Session.settled ok (session st); assigned := assigned st |}
  end.

Definition run (st : State) (evs : list Session.Event) : State :=
  fold_left step evs st.

End Browser.

(** Characters a cookie name or an encoded value is made of here: no
    white space, no [;] and no [=]. *)
Definition plain (c : N) : bool :=
  negb (is_white_space c) && negb (N.eqb c 59) && negb (N.eqb c 61).

(** A [name=value] pair as [document.cookie] lists it. *)
Definition pair (kv : jsstring * jsstring) : jsstring :=
  fst kv ++ lit "=" ++ snd kv.

(** The text [document.cookie] reads for the pairs of a cookie jar:
    the pairs separated by a semicolon and a space. *)
Fixpoint cookie_string (jar : list (jsstring * jsstring)) : jsstring :=
  match jar with
  | [] => []
  | [kv] => pair kv
  | kv :: rest => pair kv ++ lit "; " ++ cookie_string rest
  end.

(** The first value stored under a name. *)
Fixpoint lookup (name : jsstring) (jar : list (jsstring * jsstring))
  : option jsstring :=
  match jar with
  | [] => None
  | (k, v) :: rest => if eqb k name then Some v else lookup name rest
  end.

Definition well_formed (jar : list (jsstring * jsstring)) : bool :=
  forallb (fun kv => forallb plain (fst kv) && forallb plain (snd kv)) jar.

(** [defaultValues] of [useForm]; the date is tomorrow's, read from
    the clock when the component mounts. *)
Definition defaultValues (tomorrow : jsstring) : Form.FormData :=
  {| Form.activity_type := lit "";
     Form.language := lit "";
     Form.name := lit "";
     Form.id := lit "";
     Form.degree := lit "";
     Form.course := Some (lit "");
     Form.professor := Some (lit "");
     Form.date := tomorrow;
     Form.city := lit "";
     Form.image_path := Some (lit "imgs/unitn.jpg") |}.

(** The values of the form once [loadData] has run: the two catalogs
    were fetched or one of the requests failed, [loadSavedUserData]
    returned or threw, and [form.reset] is called only when one of the
    saved answers is not empty; the date is read from the clock again. *)
Definition values_after_load (fetched : bool)
  (saved : completion SavedUserData) (tomorrow_at_mount tomorrow : jsstring)
  : Form.FormData :=
  if fetched
  then
    match saved with
    | Return savedUserData =>
      if View.truthy (name savedUserData) || View.truthy (id savedUserData)
         || View.truthy (degree savedUserData)
         || View.truthy (city savedUserData)
         || View.truthy (language savedUserData)
      then
        {| Form.activity_type := lit "";
           Form.language := language savedUserData;
           Form.name := name savedUserData;
           Form.id := id savedUserData;
           Form.degree := degree savedUserData;
           Form.course := Some (lit "");
           Form.professor := Some (lit "");
           Form.date := tomorrow;
           Form.city := city savedUserData;
           Form.image_path := Some (lit "imgs/unitn.jpg") |}
      else defaultValues tomorrow_at_mount
    | Throw => defaultValues tomorrow_at_mount
    end
  else defaultValues tomorrow_at_mount.

(** The names under which answers are saved. *)
Definition saved_keys : list string :=
  ["student_name"; "student_id"; "student_degree"; "student_city";
   "student_language"].

Fixpoint starts_with (prefix s : jsstring) : bool :=
  match prefix, s with
  | [], _ => true
  | p :: prefix', c :: s' => N.eqb p c && starts_with prefix' s'
  | _ :: _, [] => false
  end.

(** An assignment to [document.cookie] that sets one of the saved
    names. *)
Definition sets_saved_key (assignment : jsstring) : bool :=
  existsb (fun k => starts_with (lit k ++ lit "=") assignment) saved_keys.

(** The rest of an assignment made by [setCookie], after the pair. *)
Definition attributes (expires : jsstring) : jsstring :=
  lit "; expires=" ++ expires ++ lit "; path=/; SameSite=Lax".

(** What [getCookie] makes of the value found, if any. *)
Definition decoded (decodeURIComponent : jsstring -> option jsstring)
  (v : option jsstring) : completion (option jsstring) :=
  match v with
  | None => Return None
  | Some e =>
    match decodeURIComponent e with
    | Some d => Return (Some d)
    | None => Throw
    end
  end.

(** A stand-in for the two URI functions on text that needs no
    escaping: such text is its own encoding. *)
Definition encode_plain (s : jsstring) : option jsstring :=
  if forallb plain s then Some s else None.

Definition decode_plain (s : jsstring) : option jsstring := Some s.

End Saved.

(** ** The submit handler between its awaits (first listing)

    [handleSubmit] waits for the resolver it has called and [onSubmit]
    waits for [form.trigger()]; a call that waits keeps the constants of
    the render that created it, while the component may render again and
    other calls may start or go on.  A state here is the component, the
    constants of the latest render (whose resolver the form holds) and
    the calls that wait. *)

Module Scheduling.

(** A call that waits: [handleSubmit] for the issues [e] of the resolver
    it called, or [onSubmit] for the issues of [form.trigger()]; [r] is
    the render whose [onSubmit] it is. *)
Inductive Task :=
| Validating (r : Session.Render) (values : Form.FormData)
    (e : list Form.ZodIssue)
| Triggering (r : Session.Render) (data : Form.FormData)
    (e : list Form.ZodIssue).

Record State := {
  component : Session.Session;
  rendered : Session.Render;
  tasks : list Task
}.

Definition mount : State :=
  {| component := Session.mount;
     rendered := Session.render Session.mount;
     tasks := [] |}.

Inductive Event :=
| Rerender
| Submit (values : Form.FormData)
| Resume (n : nat)
| Settled (ok : bool).

Definition without (n : nat) (l : list Task) : list Task :=
  firstn n l ++ skipn (S n) l.

Definition replaced (n : nat) (t : Task) (l : list Task) : list Task :=
  firstn n l ++ t :: skipn (S n) l.

(** [setIsGenerating(true)] and the call of [buildDocument]. *)
Definition start_build (data : Form.FormData) (s : Session.Session)
  : Session.Session :=
  let s2 := Session.setIsGenerating true s in
  Session.setPending (Session.pending s2 ++ [Session.documentInputs data]) s2.

(** The call that waits at position [n] goes on to its next await or to
    its end.  After the check of [handleSubmit] comes [onSubmit] with its
    guard on the [isGenerating] of its own render, then, on a first
    submission, the setter and [form.trigger()], which calls the
    resolver the form holds by then; after [form.trigger()] comes the
    request. *)
Definition resume (n : nat) (st : State) : State :=
  match nth_error (tasks st) n with
  | None => st
  | Some (Validating r values e) =>
    let s1 := Session.setErrors e (component st) in
    if Session.isEmptyObject e
    then
      if Session.r_isGenerating r
      then {| component := s1; rendered := rendered st;
              tasks := without n (tasks st) |}
      else
        if negb (Session.r_hasSubmittedOnce r)
        then
          {| component := Session.setHasSubmittedOnce true s1;
             rendered := rendered st;
             tasks := replaced n
                        (Triggering r values
                           (Session.resolver (rendered st) values))
                        (tasks st) |}
        else
          {| component := start_build values s1; rendered := rendered st;
             tasks := without n (tasks st) |}
    else {| component := s1; rendered := rendered st;
            tasks := without n (tasks st) |}
  | Some (Triggering r data e) =>
    let s1 := Session.setErrors e (component st) in
    if Session.isEmptyObject e
    then {| component := start_build data s1; rendered := rendered st;
            tasks := without n (tasks st) |}
    else {| component := s1; rendered := rendered st;
            tasks := without n (tasks st) |}
  end.

(** A render reads the state; a submission starts [handleSubmit] of the
    latest render, which calls the resolver and waits; a request that
    settles runs the [finally] block. *)
Definition step (st : State) (ev : Event) : State :=
  match ev with
  | Rerender =>
    {| component := component st;
       rendered := Session.render (component st);
       tasks := tasks st |}
  | Submit values =>
    {| component := component st;
       rendered := rendered st;
       tasks := tasks st
                ++ [Validating (rendered st) values
                      (Session.resolver (rendered st) values)] |}
  | Resume n => resume n st
  | Settled ok =>
    {| component := Session.settled ok (component st);
       rendered := rendered st;
       tasks := tasks st |}
  end.

Definition run (st : State) (evs : list Event) : State :=
  fold_left step evs st.

End Scheduling.

(** * Properties *)

(** ** JavaScript strings *)

Module JsFacts.

Import Js.

Lemma js_eqb_eq (a b : jsstring) : eqb a b = true <-> a = b.
Proof.
  revert b; induction a as [|x a IH]; intros [|y b]; simpl;
    try (split; [discriminate | discriminate]); try tauto.
  rewrite andb_true_iff, N.eqb_eq, IH.
  split; [intros [-> ->]; reflexivity | intros H; inversion H; auto].
Qed.

Lemma js_eqb_refl (a : jsstring) : eqb a a = true.
Proof. apply js_eqb_eq; reflexivity. Qed.

Lemma js_eqb_neq (a b : jsstring) : eqb a b = false <-> a <> b.
Proof.
  rewrite <- js_eqb_eq. destruct (eqb a b); split; congruence.
Qed.

(** What [trimStart] leaves is empty or starts with a character that is
    not white space. *)
Lemma trimStart_head (s : jsstring) :
  trimStart s = [] \/
  exists c t, trimStart s = c :: t /\ is_white_space c = false.
Proof.
  induction s as [|c s IH]; simpl; [left; reflexivity|].
  destruct (is_white_space c) eqn:E; [exact IH|].
  right; exists c, s; split; [reflexivity | exact E].
Qed.

Lemma trimStart_nil (s : jsstring) :
  trimStart s = [] <-> forallb is_white_space s = true.
Proof.
  induction s as [|c s IH]; simpl; [tauto|].
  destruct (is_white_space c); simpl; [exact IH|].
  split; discriminate.
Qed.

(** Trimming leaves nothing exactly for the strings made of white space. *)
Lemma trim_nil (s : jsstring) :
  trim s = [] <-> forallb is_white_space s = true.
Proof.
  rewrite <- trimStart_nil. unfold trim, trimEnd. split.
  - intros H.
    assert (H1 : trimStart (rev (trimStart s)) = []).
    { destruct (trimStart (rev (trimStart s))); [reflexivity|].
      simpl in H. destruct (rev l); discriminate. }
    apply trimStart_nil in H1.
    destruct (trimStart_head s) as [E | (c & t & E & W)]; [exact E|].
    rewrite E in H1. rewrite forallb_forall in H1.
    specialize (H1 c). rewrite <- in_rev in H1.
    rewrite H1 in W; [discriminate | left; reflexivity].
  - intros ->. reflexivity.
Qed.

End JsFacts.

(** ** The form schema *)

Module FormSpec.

Import Js Form JsFacts.

Lemma reports_app c k l1 l2 :
  reports c k (l1 ++ l2) = reports c k l1 || reports c k l2.
Proof. apply existsb_app. Qed.

Lemma error_on_app k l1 l2 :
  error_on k (l1 ++ l2) = error_on k l1 || error_on k l2.
Proof. apply existsb_app. Qed.

Lemma reports_string_min c k msg key v :
  reports c k (string_min 1 msg key v)
  = code_eqb too_small c && String.eqb key k && is_empty v.
Proof.
  destruct v; cbn; [|rewrite andb_false_r; reflexivity].
  rewrite orb_false_r, andb_true_r. reflexivity.
Qed.

Lemma error_on_string_min k msg key v :
  error_on k (string_min 1 msg key v) = String.eqb key k && is_empty v.
Proof.
  destruct v; cbn; [|rewrite andb_false_r; reflexivity].
  rewrite orb_false_r, andb_true_r. reflexivity.
Qed.

Lemma reports_when c k (b : bool) l :
  reports c k (if b then l else []) = b && reports c k l.
Proof. destruct b; reflexivity. Qed.

Lemma error_on_when k (b : bool) l :
  error_on k (if b then l else []) = b && error_on k l.
Proof. destruct b; reflexivity. Qed.

Lemma reports_addIssue c k msg key :
  reports c k (addIssue msg key) = code_eqb custom c && String.eqb key k.
Proof. cbn. rewrite orb_false_r. reflexivity. Qed.

Lemma error_on_addIssue k msg key :
  error_on k (addIssue msg key) = String.eqb key k.
Proof. cbn. rewrite orb_false_r. reflexivity. Qed.

Create Rewrite HintDb issues.

#[local] Hint Rewrite reports_app error_on_app reports_string_min
  error_on_string_min reports_when error_on_when reports_addIssue
  error_on_addIssue : issues.

(** [!v || v.trim() === ""] holds exactly when nothing is left of the
    field after trimming. *)
Lemma blank_trimmed (v : option jsstring) :
  blank v = is_empty (trimmed v).
Proof.
  destruct v as [[|c s]|]; try reflexivity.
  unfold blank, trimmed, falsy.
  generalize (trim (c :: s)); intros [|x t]; reflexivity.
Qed.

Lemma is_empty_nil (s : jsstring) : is_empty s = true <-> s = [].
Proof. destruct s; cbn; split; congruence. Qed.

(** The base schema raises [too_small] only, and never on the two
    optional fields. *)
Lemma baseSchema_custom k data : reports custom k (baseSchema data) = false.
Proof. unfold baseSchema. autorewrite with issues. reflexivity. Qed.

Lemma baseSchema_course data : error_on "course" (baseSchema data) = false.
Proof. unfold baseSchema. autorewrite with issues. reflexivity. Qed.

Lemma baseSchema_professor data :
  error_on "professor" (baseSchema data) = false.
Proof. unfold baseSchema. autorewrite with issues. reflexivity. Qed.

Section AnyListing.

Variable office_hours_value : jsstring.

(** After the first submission, an issue is raised on [course] exactly
    when nothing is left of it after trimming and the activity is one of
    the three that ask for it. *)
Lemma strict_course data :
  reports custom "course" (createFormSchema_with office_hours_value true data) = true <->
  trimmed (course data) = [] /\
  (activity_type data = lit "lectures"
   \/ activity_type data = lit "oral-exam"
   \/ activity_type data = lit "written-exam").
Proof.
  unfold createFormSchema_with, refinement; cbn [negb].
  rewrite reports_app, baseSchema_custom. autorewrite with issues.
  rewrite !blank_trimmed. cbn.
  rewrite ?andb_false_r, ?andb_true_r, ?orb_false_r. cbn [orb].
  rewrite orb_true_iff, !andb_true_iff, orb_true_iff, !js_eqb_eq, is_empty_nil.
  tauto.
Qed.

(** After the first submission, an issue is raised on [professor]
    exactly when nothing is left of it after trimming and the activity
    is the listing's office-hours value. *)
Lemma strict_professor data :
  reports custom "professor" (createFormSchema_with office_hours_value true data) = true <->
  trimmed (professor data) = [] /\ activity_type data = office_hours_value.
Proof.
  unfold createFormSchema_with, refinement; cbn [negb].
  rewrite reports_app, baseSchema_custom. autorewrite with issues.
  rewrite !blank_trimmed. cbn.
  rewrite ?andb_false_r, ?andb_true_r, ?orb_false_r. cbn [orb].
  rewrite andb_true_iff, js_eqb_eq, is_empty_nil.
  tauto.
Qed.

(** Before the first submission no issue of any code is addressed to
    [course] or [professor]. *)
Lemma lenient_optional_fields data :
  error_on "course" (createFormSchema_with office_hours_value false data) = false
  /\ error_on "professor" (createFormSchema_with office_hours_value false data) = false.
Proof.
  unfold createFormSchema_with; cbn [negb].
  split; [apply baseSchema_course | apply baseSchema_professor].
Qed.

(** In both modes, [too_small] is raised on a required key exactly when
    its value has length zero. *)
Lemma required_key_min hasSubmitted data :
  Forall (fun kg =>
            reports too_small (fst kg) (createFormSchema_with office_hours_value hasSubmitted data) = true
            <-> snd kg data = [])
         required_keys.
Proof.
  unfold createFormSchema_with, refinement, baseSchema, required_keys.
  repeat constructor; cbn [fst snd];
    destruct hasSubmitted; cbn [negb]; autorewrite with issues; cbn;
    rewrite ?andb_false_r, ?orb_false_r; apply is_empty_nil.
Qed.

(** In both modes the only issue addressed to [date] is the one of
    [.min(1)], raised for the empty string. *)
Lemma date_issue hasSubmitted data :
  error_on "date" (createFormSchema_with office_hours_value hasSubmitted data)
  = is_empty (date data)
  /\ reports too_small "date"
       (createFormSchema_with office_hours_value hasSubmitted data)
     = is_empty (date data).
Proof.
  unfold createFormSchema_with, refinement, baseSchema.
  destruct hasSubmitted; cbn [negb]; autorewrite with issues; cbn;
    rewrite ?andb_false_r, ?orb_false_r; split; reflexivity.
Qed.

End AnyListing.

(** The first listing applies the conditional rules to the activities
    the template knows: a course for lectures and the two exams, a
    professor for office hours, and neither before the first submission. *)
Lemma first_listing_conditional_rules data :
  (reports custom "course" (DocumentBuild.createFormSchema true data) = true
   <-> trimmed (course data) = []
       /\ (activity_type data = lit "lectures"
           \/ activity_type data = lit "oral-exam"
           \/ activity_type data = lit "written-exam"))
  /\ (reports custom "professor" (DocumentBuild.createFormSchema true data) = true
      <-> trimmed (professor data) = []
          /\ activity_type data = lit "office-hours")
  /\ error_on "course" (DocumentBuild.createFormSchema false data) = false
  /\ error_on "professor" (DocumentBuild.createFormSchema false data) = false.
Proof.
  unfold DocumentBuild.createFormSchema.
  split; [apply strict_course|].
  split; [apply strict_professor|].
  apply lenient_optional_fields.
Qed.

(** The paths of the issues of one [.min(1)] check. *)
Lemma error_paths_string_min msg key v :
  error_paths (string_min 1 msg key v)
  = map (fun kv : string * bool => [fst kv]) (filter snd [(key, is_empty v)]).
Proof. destruct v; reflexivity. Qed.

Lemma error_paths_app l1 l2 :
  error_paths (l1 ++ l2) = error_paths l1 ++ error_paths l2.
Proof. apply map_app. Qed.

Lemma error_paths_baseSchema data :
  error_paths (baseSchema data)
  = map (fun kv : string * bool => [fst kv])
        (filter snd (map (fun kg => (fst kg, is_empty (snd kg data)))
                         required_keys)).
Proof.
  unfold baseSchema, required_keys.
  rewrite !error_paths_app, !error_paths_string_min. cbn [map fst snd].
  destruct (activity_type data), (language data), (name data), (id data),
    (degree data), (date data), (city data); reflexivity.
Qed.

Lemma error_paths_refinement data :
  error_paths (refinement (lit "office-hours") data)
  = map (fun kv : string * bool => [fst kv])
        (filter snd
           [ ("course",
              existsb (fun a => eqb (activity_type data) (lit a))
                      course_activities
              && is_empty (trimmed (course data)));
             ("professor",
              eqb (activity_type data) (lit "office-hours")
              && is_empty (trimmed (professor data))) ]).
Proof.
  unfold refinement, course_activities. rewrite !blank_trimmed.
  cbn [existsb].
  destruct (eqb (activity_type data) (lit "lectures")) eqn:E1.
  { apply js_eqb_eq in E1. rewrite E1. cbn.
    destruct (is_empty (trimmed (course data))); reflexivity. }
  destruct (eqb (activity_type data) (lit "oral-exam")) eqn:E2.
  { apply js_eqb_eq in E2. rewrite E2. cbn.
    destruct (is_empty (trimmed (course data))); reflexivity. }
  destruct (eqb (activity_type data) (lit "written-exam")) eqn:E3.
  { apply js_eqb_eq in E3. rewrite E3. cbn.
    destruct (is_empty (trimmed (course data))); reflexivity. }
  destruct (eqb (activity_type data) (lit "office-hours"));
    destruct (is_empty (trimmed (professor data))); reflexivity.
Qed.

(** C1 as stated fails on the second listing: with the activity
    ["office-hours-meeting"] and the professor left empty its strict
    schema raises the issue on [professor], for an activity that is not
    ["office-hours"]. *)
Lemma second_listing_other_tag :
  ~ (reports custom "professor"
       (DocumentBuildSaved.createFormSchema true
          Examples.office_hours_meeting_without_professor) = true
     <-> trimmed (professor Examples.office_hours_meeting_without_professor) = []
         /\ activity_type Examples.office_hours_meeting_without_professor
            = lit "office-hours").
Proof.
  intros [H _]. destruct (H eq_refl) as [_ E]. discriminate E.
Qed.

(** C1, amended: after the first submission both listings raise the
    issue on [course] exactly when nothing is left of the course after
    trimming and the activity is lectures, oral-exam or written-exam,
    and the issue on [professor] exactly when nothing is left of the
    professor after trimming and the activity is the listing's value for
    office hours, ["office-hours"] in the first listing and
    ["office-hours-meeting"] in the second; before the first submission
    neither listing raises any issue on [course] or [professor]. *)
Theorem conditional_rules_of_both_listings data :
  (reports custom "course" (DocumentBuild.createFormSchema true data) = true
   <-> trimmed (course data) = []
       /\ (activity_type data = lit "lectures"
           \/ activity_type data = lit "oral-exam"
           \/ activity_type data = lit "written-exam"))
  /\ (reports custom "professor" (DocumentBuild.createFormSchema true data) = true
      <-> trimmed (professor data) = []
          /\ activity_type data = lit "office-hours")
  /\ error_on "course" (DocumentBuild.createFormSchema false data) = false
  /\ error_on "professor" (DocumentBuild.createFormSchema false data) = false
  /\ (reports custom "course" (DocumentBuildSaved.createFormSchema true data) = true
      <-> trimmed (course data) = []
          /\ (activity_type data = lit "lectures"
              \/ activity_type data = lit "oral-exam"
              \/ activity_type data = lit "written-exam"))
  /\ (reports custom "professor"
        (DocumentBuildSaved.createFormSchema true data) = true
      <-> trimmed (professor data) = []
          /\ activity_type data = lit "office-hours-meeting")
  /\ error_on "course" (DocumentBuildSaved.createFormSchema false data) = false
  /\ error_on "professor" (DocumentBuildSaved.createFormSchema false data)
     = false.
Proof.
  unfold DocumentBuild.createFormSchema, DocumentBuildSaved.createFormSchema.
  split; [apply strict_course|].
  split; [apply strict_professor|].
  split; [apply lenient_optional_fields|].
  split; [apply lenient_optional_fields|].
  split; [apply strict_course|].
  split; [apply strict_professor|].
  apply lenient_optional_fields.
Qed.

(** C2 as stated fails: a name of one space is empty after trimming and
    raises no issue, before and after the first submission. *)
Lemma name_of_one_space_accepted :
  ~ (forall hasSubmitted,
       reports too_small "name"
         (DocumentBuild.createFormSchema hasSubmitted Examples.name_of_one_space)
       = true
       <-> trim (name Examples.name_of_one_space) = []).
Proof.
  intros H. destruct (H false) as [_ H1].
  specialize (H1 eq_refl). discriminate H1.
Qed.

(** C2, amended: in both listings and in both modes, the issue of a
    required key ([activity_type], [language], [name], [id], [degree],
    [date], [city]) is raised exactly when the value is the empty
    string; nothing is trimmed, so white space alone is accepted. *)
Theorem required_keys_checked_by_length hasSubmitted data :
  Forall (fun kg =>
            reports too_small (fst kg)
              (DocumentBuild.createFormSchema hasSubmitted data) = true
            <-> snd kg data = [])
         required_keys
  /\ Forall (fun kg =>
               reports too_small (fst kg)
                 (DocumentBuildSaved.createFormSchema hasSubmitted data) = true
               <-> snd kg data = [])
            required_keys.
Proof. split; apply required_key_min. Qed.

(** C5: one parse returns the issues of all the broken rules together,
    one per field and addressed by its key: the paths of the issues are
    the keys of the rule table whose rule is broken, each key once; a
    record with no name and, for lectures, no course gets both. *)
Theorem all_violations_reported hasSubmitted data :
  error_paths (DocumentBuild.createFormSchema hasSubmitted data)
  = map (fun kv : string * bool => [fst kv])
        (filter snd (rule_table hasSubmitted data))
  /\ NoDup (map fst (rule_table hasSubmitted data))
  /\ error_paths (DocumentBuild.createFormSchema true Examples.no_name_no_course)
     = [["name"]; ["course"]].
Proof.
  split; [|split; [|reflexivity]].
  - unfold DocumentBuild.createFormSchema, createFormSchema_with, rule_table.
    rewrite filter_app, map_app.
    destruct hasSubmitted; cbn [negb andb].
    + rewrite error_paths_app, error_paths_baseSchema, error_paths_refinement.
      reflexivity.
    + rewrite error_paths_baseSchema. cbn [filter snd map].
      rewrite app_nil_r. reflexivity.
  - unfold rule_table, required_keys. cbn [map fst app].
    repeat (constructor; [cbn; intuition discriminate|]). constructor.
Qed.

End FormSpec.

(** ** The component state *)

Module SessionSpec.

Import Session.

Lemma isEmptyObject_nil e : isEmptyObject e = true <-> e = [].
Proof. destruct e; cbn; split; congruence. Qed.

(** While the flag is up, a submission changes nothing but the errors
    shown. *)
Lemma submit_while_generating values s :
  isGenerating s = true ->
  step s (Submit values) = setErrors (resolver (render s) values) s.
Proof.
  intros G. cbn. unfold handleSubmit, onSubmit.
  destruct (isEmptyObject (resolver (render s) values)); [|reflexivity].
  cbn. rewrite G. reflexivity.
Qed.

(** With the flag down, a submission whose values pass the resolver of
    the latest render sends one request. *)
Lemma submit_sends values s :
  isGenerating s = false ->
  resolver (render s) values = [] ->
  step s (Submit values)
  = {| hasSubmittedOnce := true; isGenerating := true; errors := [];
       pending := pending s ++ [documentInputs values] |}.
Proof.
  intros G E. cbn. unfold handleSubmit, onSubmit, trigger.
  rewrite E. cbn. rewrite G.
  destruct (hasSubmittedOnce s) eqn:H; cbn; rewrite ?E; cbn;
    unfold setPending, setIsGenerating, setErrors, setHasSubmittedOnce; cbn;
    rewrite ?H; reflexivity.
Qed.

(** Values that do not pass the resolver only set the errors. *)
Lemma submit_rejected values s :
  resolver (render s) values <> [] ->
  step s (Submit values) = setErrors (resolver (render s) values) s.
Proof.
  intros E. cbn. unfold handleSubmit.
  destruct (resolver (render s) values); [congruence | reflexivity].
Qed.

Lemma step_guarded s ev : guarded s -> guarded (step s ev).
Proof.
  unfold guarded. intros G. destruct ev as [values | ok].
  - destruct (isGenerating s) eqn:Gen.
    + rewrite submit_while_generating by exact Gen. cbn.
      destruct (pending s) as [|r [|r' p]]; congruence.
    + destruct (resolver (render s) values) eqn:E.
      * rewrite submit_sends by assumption. cbn.
        destruct (pending s) as [|r [|r' p]]; cbn; congruence.
      * rewrite submit_rejected by congruence. cbn.
        destruct (pending s) as [|r [|r' p]]; congruence.
  - cbn. unfold settled.
    destruct (pending s) as [|r [|r' p]] eqn:P; cbn; rewrite ?P; tauto.
Qed.

Lemma run_guarded evs : forall s, guarded s -> guarded (run s evs).
Proof.
  induction evs as [|ev evs IH]; intros s G; [exact G|].
  apply IH, step_guarded, G.
Qed.

Lemma mount_guarded : guarded mount.
Proof. reflexivity. Qed.

(** Whatever the refinement would say, a first submission that passes
    the base schema sends its request: the resolver at hand, for the
    check of [handleSubmit] and for [form.trigger()] alike, is the one of
    the render in which [hasSubmittedOnce] was still false. *)
Lemma first_submission_sends values :
  Form.baseSchema values = [] ->
  step mount (Submit values)
  = {| hasSubmittedOnce := true; isGenerating := true; errors := [];
       pending := [documentInputs values] |}.
Proof.
  intros E. apply (submit_sends values mount); [reflexivity | exact E].
Qed.

(** C4, evaluated on the scenario record (lectures, no course): the
    strict schema raises the issue on [course], yet the first submission
    sets [hasSubmittedOnce], shows no error and sends the build request
    with the empty course; the same record submitted again after that
    request has settled is rejected with the issue on [course]. *)
Theorem first_submission_not_strict :
  Form.error_paths
    (Form.DocumentBuild.createFormSchema true Examples.lectures_without_course)
  = [["course"]]
  /\ step mount (Submit Examples.lectures_without_course)
     = {| hasSubmittedOnce := true; isGenerating := true; errors := [];
          pending := [documentInputs Examples.lectures_without_course] |}
  /\ Api.course (documentInputs Examples.lectures_without_course) = []
  /\ Form.error_paths
       (errors (run mount [ Submit Examples.lectures_without_course;
                            Settled false;
                            Submit Examples.lectures_without_course ]))
     = [["course"]]
  /\ pending (run mount [ Submit Examples.lectures_without_course;
                          Settled false;
                          Submit Examples.lectures_without_course ])
     = [].
Proof. repeat split; reflexivity. Qed.

(** The guard in the orderly schedule, where the form has rendered
    before each submission: at most one build request is out and the
    flag is up exactly then; a submission made meanwhile leaves the
    flags and the request as they are; when the request settles, with
    success or failure, the flag is down and nothing is out; and the
    next submission whose values pass the resolver sends its request. *)
Lemma orderly_one_build_in_flight evs :
  let s := run mount evs in
  List.length (pending s) <= 1
  /\ (isGenerating s = true <-> pending s <> [])
  /\ (forall values,
        pending s <> [] ->
        hasSubmittedOnce (step s (Submit values)) = hasSubmittedOnce s
        /\ isGenerating (step s (Submit values)) = isGenerating s
        /\ pending (step s (Submit values)) = pending s)
  /\ (forall ok,
        isGenerating (step s (Settled ok)) = false
        /\ pending (step s (Settled ok)) = [])
  /\ (forall ok values,
        resolver (render (step s (Settled ok))) values = [] ->
        pending (step (step s (Settled ok)) (Submit values))
        = [documentInputs values]).
Proof.
  intros s.
  assert (G : guarded s) by (apply run_guarded, mount_guarded).
  assert (S : forall ok, isGenerating (step s (Settled ok)) = false
                         /\ pending (step s (Settled ok)) = []).
  { intros ok. cbn. unfold settled. unfold guarded in G.
    destruct (pending s) as [|r [|r' p]] eqn:P; cbn; rewrite ?P; tauto. }
  unfold guarded in G.
  split; [|split; [|split; [|split]]].
  - destruct (pending s) as [|r [|r' p]]; cbn; [lia | lia | tauto].
  - destruct (pending s) as [|r [|r' p]]; [| |tauto];
      split; congruence.
  - intros values P.
    assert (Gen : isGenerating s = true).
    { destruct (pending s) as [|r [|r' p]]; [congruence | exact G | tauto]. }
    rewrite submit_while_generating by exact Gen. cbn. auto.
  - exact S.
  - intros ok values E. destruct (S ok) as [Gen P].
    rewrite submit_sends by assumption.
    change (pending (step s (Settled ok)) ++ [documentInputs values]
            = [documentInputs values]).
    rewrite P. reflexivity.
Qed.

End SessionSpec.

(** ** Typst strings and dates *)

Module TypstFacts.

Import Typst.

Lemma str_eqb_eq (a b : str) : eqb a b = true <-> a = b.
Proof.
  revert b; induction a as [|x a IH]; intros [|y b]; simpl;
    try (split; [discriminate | discriminate]); try tauto.
  rewrite andb_true_iff, N.eqb_eq, IH.
  split; [intros [-> ->]; reflexivity | intros H; inversion H; auto].
Qed.

Lemma utf8_width_pos c : 0 < utf8_width c.
Proof.
  unfold utf8_width.
  destruct (c <? 128)%N, (c <? 2048)%N, (c <? 65536)%N; lia.
Qed.

(** Only the empty string has length zero. *)
Lemma len_zero (s : str) : len s = 0 <-> s = [].
Proof.
  destruct s as [|c s]; cbn; [tauto|].
  pose proof (utf8_width_pos c). split; [lia | discriminate].
Qed.

Lemma len_repeat_underscore n : len (repeat_str (lit "_") n) = n.
Proof. induction n as [|n IH]; cbn in *; [reflexivity | rewrite IH; reflexivity]. Qed.

(** A character TOML reads as a digit is one of the ten ASCII digits. *)
Lemma digit_value_some c x :
  digit_value c = Some x -> x < 10 /\ c = N.of_nat (48 + x).
Proof.
  unfold digit_value.
  destruct ((48 <=? c)%N && (c <=? 57)%N) eqn:E; [|discriminate].
  intros H; injection H as <-.
  apply andb_true_iff in E. destruct E as [E1 E2].
  apply N.leb_le in E1. apply N.leb_le in E2. lia.
Qed.

Lemma digit_value_ascii c x : digit_value c = Some x -> ascii_digit c = true.
Proof.
  unfold digit_value, ascii_digit.
  destruct ((48 <=? c)%N && (c <=? 57)%N); [reflexivity | discriminate].
Qed.

Lemma below_ten x : x < 10 -> In x (seq 0 10).
Proof. intros H. apply in_seq. lia. Qed.

(** Two digits are printed back as they were read. *)
Lemma pad_zero_2 a b x y :
  digit_value a = Some x -> digit_value b = Some y ->
  pad_zero 2 (10 * x + y) = [a; b].
Proof.
  intros Ha Hb.
  apply digit_value_some in Ha. apply digit_value_some in Hb.
  destruct Ha as [Hx ->]. destruct Hb as [Hy ->].
  assert (C : forallb (fun x => forallb (fun y =>
                eqb (pad_zero 2 (10 * x + y))
                    [N.of_nat (48 + x); N.of_nat (48 + y)])
              (seq 0 10)) (seq 0 10) = true) by (vm_compute; reflexivity).
  rewrite forallb_forall in C. specialize (C x (below_ten x Hx)).
  rewrite forallb_forall in C. specialize (C y (below_ten y Hy)).
  apply str_eqb_eq, C.
Qed.

(** So are four. *)
Lemma pad_zero_4 a b c d x y z t :
  digit_value a = Some x -> digit_value b = Some y ->
  digit_value c = Some z -> digit_value d = Some t ->
  pad_zero 4 (100 * (10 * x + y) + (10 * z + t)) = [a; b; c; d].
Proof.
  intros Ha Hb Hc Hd.
  apply digit_value_some in Ha. apply digit_value_some in Hb.
  apply digit_value_some in Hc. apply digit_value_some in Hd.
  destruct Ha as [Hx ->]. destruct Hb as [Hy ->].
  destruct Hc as [Hz ->]. destruct Hd as [Ht ->].
  assert (C : forallb (fun x => forallb (fun y =>
              forallb (fun z => forallb (fun t =>
                eqb (pad_zero 4 (100 * (10 * x + y) + (10 * z + t)))
                    [N.of_nat (48 + x); N.of_nat (48 + y);
                     N.of_nat (48 + z); N.of_nat (48 + t)])
              (seq 0 10)) (seq 0 10)) (seq 0 10)) (seq 0 10) = true)
    by (vm_compute; reflexivity).
  rewrite forallb_forall in C. specialize (C x (below_ten x Hx)).
  rewrite forallb_forall in C. specialize (C y (below_ten y Hy)).
  rewrite forallb_forall in C. specialize (C z (below_ten z Hz)).
  rewrite forallb_forall in C. specialize (C t (below_ten t Ht)).
  apply str_eqb_eq, C.
Qed.

Lemma number2_some a b n :
  number2 a b = Some n ->
  exists x y, digit_value a = Some x /\ digit_value b = Some y
              /\ n = 10 * x + y.
Proof.
  unfold number2.
  destruct (digit_value a) as [x|]; [|discriminate].
  destruct (digit_value b) as [y|]; [|discriminate].
  intros H; injection H as H. exists x, y. auto.
Qed.

Lemma number4_some a b c d n :
  number4 a b c d = Some n ->
  exists x y z t,
    digit_value a = Some x /\ digit_value b = Some y
    /\ digit_value c = Some z /\ digit_value d = Some t
    /\ n = 100 * (10 * x + y) + (10 * z + t).
Proof.
  unfold number4.
  destruct (number2 a b) as [p|] eqn:P; [|discriminate].
  destruct (number2 c d) as [q|] eqn:Q; [|discriminate].
  intros H; injection H as H.
  apply number2_some in P. destruct P as (x & y & Hx & Hy & ->).
  apply number2_some in Q. destruct Q as (z & t & Hz & Ht & ->).
  exists x, y, z, t. auto.
Qed.

(** A string TOML reads as a date has the shape
    [yyyy-mm-dd] in ASCII digits, and the date is displayed as
    [dd/mm/yyyy] with the same digits. *)
Lemma toml_date_display s when :
  toml_date s = Some when ->
  exists y1 y2 y3 y4 m1 m2 d1 d2,
    s = [y1; y2; y3; y4; 45%N; m1; m2; 45%N; d1; d2]
    /\ forallb ascii_digit [y1; y2; y3; y4; m1; m2; d1; d2] = true
    /\ display_day_month_year when
       = [d1; d2; 47%N; m1; m2; 47%N; y1; y2; y3; y4].
Proof.
  unfold toml_date.
  destruct s as [|y1 [|y2 [|y3 [|y4 [|h1 [|m1 [|m2 [|h2 [|d1 [|d2 [|x s]]]]]]]]]]];
    try discriminate.
  destruct (N.eqb h1 45 && N.eqb h2 45)%bool eqn:Hh; [|discriminate].
  apply andb_true_iff in Hh. destruct Hh as [H1 H2].
  apply N.eqb_eq in H1. apply N.eqb_eq in H2. subst h1 h2.
  destruct (number4 y1 y2 y3 y4) as [y|] eqn:Ny; [|discriminate].
  destruct (number2 m1 m2) as [m|] eqn:Nm; [|discriminate].
  destruct (number2 d1 d2) as [d|] eqn:Nd; [|discriminate].
  match goal with |- (if ?b then _ else _) = _ -> _ => destruct b end;
    [|discriminate].
  intros H; injection H as <-.
  apply number4_some in Ny. destruct Ny as (a1 & a2 & a3 & a4 & E1 & E2 & E3 & E4 & ->).
  apply number2_some in Nm. destruct Nm as (b1 & b2 & E5 & E6 & ->).
  apply number2_some in Nd. destruct Nd as (c1 & c2 & E7 & E8 & ->).
  exists y1, y2, y3, y4, m1, m2, d1, d2.
  split; [reflexivity|]. split.
  - cbn [forallb].
    rewrite (digit_value_ascii _ _ E1), (digit_value_ascii _ _ E2),
      (digit_value_ascii _ _ E3), (digit_value_ascii _ _ E4),
      (digit_value_ascii _ _ E5), (digit_value_ascii _ _ E6),
      (digit_value_ascii _ _ E7), (digit_value_ascii _ _ E8).
    reflexivity.
  - unfold display_day_month_year. cbn [year month day].
    rewrite (pad_zero_2 _ _ _ _ E7 E8), (pad_zero_2 _ _ _ _ E5 E6),
      (pad_zero_4 _ _ _ _ _ _ _ _ E1 E2 E3 E4).
    reflexivity.
Qed.

End TypstFacts.

(** ** The template *)

Module TemplateSpec.

Import Typst Template TypstFacts.

Lemma equals_eq v k : equals v k = true <-> v = Some (lit k).
Proof.
  destruct v as [a|]; cbn; [|split; discriminate].
  rewrite str_eqb_eq. split; [intros ->; reflexivity | intros H; injection H; auto].
Qed.

(** The four values the assertion on the activity lets through. *)
Lemma in_activities_cases v :
  in_activities v = true ->
  v = Some (lit "lectures") \/ v = Some (lit "oral-exam")
  \/ v = Some (lit "written-exam") \/ v = Some (lit "office-hours").
Proof.
  unfold in_activities, activities. cbn [existsb].
  rewrite !orb_true_iff, !equals_eq. intuition discriminate.
Qed.

(** The assertion of lines 77-84 holds for every value. *)
Lemma at_most_one_activity v :
  (bit (equals v "lectures") + bit (equals v "oral-exam")
   + bit (equals v "written-exam") + bit (equals v "office-hours") <=? 1)
  = true.
Proof.
  destruct (equals v "lectures") eqn:E1.
  { apply equals_eq in E1. subst v. reflexivity. }
  destruct (equals v "oral-exam") eqn:E2.
  { apply equals_eq in E2. subst v. reflexivity. }
  destruct (equals v "written-exam") eqn:E3.
  { apply equals_eq in E3. subst v. reflexivity. }
  destruct (equals v "office-hours"); reflexivity.
Qed.

(** Accepted inputs give a document: the body laid out for the date
    TOML read. *)
Lemma accepted_document is_Nd i :
  accepts is_Nd i = true ->
  exists s when,
    date i = Some s /\ toml_date s = Some when
    /\ document is_Nd i = Ok (body i when).
Proof.
  unfold accepts. rewrite !andb_true_iff.
  intros [[[[[[[[Hn Hi] Hd] Hm] Hc] Hp] Hl] Ha] Ht].
  destruct (date i) as [s|] eqn:D; [|discriminate].
  destruct (toml_date s) as [when|] eqn:T; [|discriminate].
  exists s, when. split; [reflexivity|]. split; [exact T|].
  unfold document, preamble, check_date, parse_date, str_match.
  rewrite Hn, Hi, Hd, D, Hm, Hc, Hp, Hl, Ha, T, at_most_one_activity.
  reflexivity.
Qed.

(** A document is given for accepted inputs only. *)
Lemma document_accepted is_Nd i doc :
  document is_Nd i = Ok doc ->
  accepts is_Nd i = true
  /\ exists s when,
       date i = Some s /\ toml_date s = Some when /\ doc = body i when.
Proof.
  unfold document, preamble, check_date, parse_date, str_match, accepts.
  destruct (provided (name i)); [|discriminate].
  destruct (provided (id i)); [|discriminate].
  destruct (provided (degree i)); [|discriminate].
  destruct (date i) as [s|]; [|discriminate].
  destruct (anchored_match is_Nd date_regex s); [|discriminate].
  destruct (provided (city i)); [|discriminate].
  destruct (provided (image_path i)); [|discriminate].
  destruct (provided (language i)); [|discriminate].
  destruct (in_activities (activity_type i)); [|discriminate].
  destruct (toml_date s) as [when|] eqn:T; [|discriminate].
  rewrite at_most_one_activity. cbn.
  intros H; injection H as <-.
  split; [reflexivity|]. exists s, when. auto.
Qed.

(** The placeholder: twenty underscores for [none] and for the empty
    string, the value itself otherwise; never the empty string. *)
Lemma value_or_blank_empty v :
  empty v = true -> value_or_blank v = repeat_str (lit "_") 20.
Proof.
  destruct v as [a|]; cbn [empty value_or_blank]; [|reflexivity].
  intros ->. reflexivity.
Qed.

Lemma value_or_blank_shown v : 0 < len (value_or_blank v).
Proof.
  destruct v as [a|]; cbn [value_or_blank]; [|cbn; lia].
  destruct (len a =? 0) eqn:E; [cbn; lia|].
  apply Nat.eqb_neq in E. lia.
Qed.

(** What the readers of the document find in the body, whatever the
    activity. *)
Lemma header_lines_body i when :
  header_lines (body i when) = [date_with_city (city i) when].
Proof.
  unfold body, lectures_section, exams_section, office_hours_section.
  destruct (equals (activity_type i) "lectures"),
    (equals (activity_type i) "written-exam"),
    (equals (activity_type i) "oral-exam"),
    (equals (activity_type i) "office-hours"); reflexivity.
Qed.

Lemma occurrences_course_body i when :
  occurrences "course" (body i when)
  = [Some (value_or_blank (course i)); course i].
Proof.
  unfold body, lectures_section, exams_section, office_hours_section.
  destruct (equals (activity_type i) "lectures"),
    (equals (activity_type i) "written-exam"),
    (equals (activity_type i) "oral-exam"),
    (equals (activity_type i) "office-hours"); reflexivity.
Qed.

Lemma occurrences_professor_body i when :
  occurrences "professor" (body i when)
  = [Some (value_or_blank (professor i))].
Proof.
  unfold body, lectures_section, exams_section, office_hours_section.
  destruct (equals (activity_type i) "lectures"),
    (equals (activity_type i) "written-exam"),
    (equals (activity_type i) "oral-exam"),
    (equals (activity_type i) "office-hours"); reflexivity.
Qed.

Lemma transl_arg_course_body i when :
  transl_arg "lecture-description" "course" (body i when)
  = [Some (value_or_blank (course i))]
  /\ transl_arg "for-the-course" "course" (body i when) = [course i].
Proof.
  unfold body, lectures_section, exams_section, office_hours_section.
  destruct (equals (activity_type i) "lectures"),
    (equals (activity_type i) "written-exam"),
    (equals (activity_type i) "oral-exam"),
    (equals (activity_type i) "office-hours"); split; reflexivity.
Qed.

(** The marks of the five checklist items, for each of the four
    activities. *)
Lemma marks_body i when :
  in_activities (activity_type i) = true ->
  Forall (fun k =>
            marks_of k (body i when)
            = [if equals (activity_type i) k then Checked else Unchecked])
         activities
  /\ marks_of "exams" (body i when)
     = [if equals (activity_type i) "written-exam"
           || equals (activity_type i) "oral-exam"
        then Checked else Unchecked]
  /\ count_checked activities (body i when) = 1
  /\ count_checked ["written-exam"; "oral-exam"] (body i when) <= 1.
Proof.
  intros H. apply in_activities_cases in H.
  unfold body, lectures_section, exams_section, office_hours_section,
    activities.
  destruct H as [-> | [-> | [-> | ->]]];
    (split; [repeat constructor | split; [reflexivity | split;
       [reflexivity | vm_compute; lia]]]).
Qed.

(** C6: for inputs the template accepts, whose activity is then one of
    the four values, the document has one checklist item for each of
    [lectures], [oral-exam], [written-exam] and [office-hours]; the item
    of the activity is checked and the other three are not, so exactly
    one of the four is checked and at most one of the two exam items;
    the [exams] item above them is checked for either exam. *)
Theorem one_branch_checked is_Nd i :
  accepts is_Nd i = true ->
  exists doc,
    document is_Nd i = Ok doc
    /\ Forall (fun k =>
                 marks_of k doc
                 = [if equals (activity_type i) k then Checked else Unchecked])
              activities
    /\ marks_of "exams" doc
       = [if equals (activity_type i) "written-exam"
             || equals (activity_type i) "oral-exam"
          then Checked else Unchecked]
    /\ count_checked activities doc = 1
    /\ count_checked ["written-exam"; "oral-exam"] doc <= 1.
Proof.
  intros A.
  destruct (accepted_document is_Nd i A) as (s & when & _ & _ & D).
  exists (body i when). split; [exact D|].
  apply marks_body.
  unfold accepts in A. rewrite !andb_true_iff in A. tauto.
Qed.

(** C6 on the sample inputs of the template. *)
Lemma one_branch_checked_sample :
  accepts ascii_digit Examples.sample_inputs = true
  /\ exists doc,
       document ascii_digit Examples.sample_inputs = Ok doc
       /\ Forall (fun k =>
                    marks_of k doc
                    = [if equals (activity_type Examples.sample_inputs) k
                       then Checked else Unchecked])
                 activities
       /\ marks_of "exams" doc
          = [if equals (activity_type Examples.sample_inputs) "written-exam"
                || equals (activity_type Examples.sample_inputs) "oral-exam"
             then Checked else Unchecked]
       /\ count_checked activities doc = 1
       /\ count_checked ["written-exam"; "oral-exam"] doc <= 1.
Proof.
  split; [reflexivity|].
  apply (one_branch_checked ascii_digit Examples.sample_inputs).
  reflexivity.
Defined.

(** C7, evaluated for office hours with an empty course: the document
    is produced and the course occurs in it twice, first as the twenty
    underscores of the lecture description, then, in the line
    [for-the-course], as the empty string it was given. *)
Theorem for_the_course_left_empty :
  empty (course Examples.office_hours_inputs) = true
  /\ exists doc,
       document ascii_digit Examples.office_hours_inputs = Ok doc
       /\ occurrences "course" doc
          = [Some (repeat_str (lit "_") 20); Some (lit "")]
       /\ transl_arg "for-the-course" "course" doc = [Some (lit "")].
Proof.
  split; [reflexivity|].
  eexists. split; [reflexivity|]. split; reflexivity.
Qed.

(** C8: for inputs the template accepts, the date is [yyyy-mm-dd] and
    the one right-aligned line of the document is the city, a comma and
    a space, then [dd/mm/yyyy] with the digits of the date; for the date
    [2024-01-01] it ends in [01/01/2024]. *)
Theorem header_city_and_date is_Nd i :
  accepts is_Nd i = true ->
  exists doc c y1 y2 y3 y4 m1 m2 d1 d2,
    document is_Nd i = Ok doc
    /\ city i = Some c
    /\ date i = Some [y1; y2; y3; y4; 45%N; m1; m2; 45%N; d1; d2]
    /\ header_lines doc
       = [c ++ lit ", " ++ [d1; d2; 47%N; m1; m2; 47%N; y1; y2; y3; y4]]
    /\ (date i = Some (lit "2024-01-01") ->
        header_lines doc = [c ++ lit ", 01/01/2024"]).
Proof.
  intros A.
  destruct (accepted_document is_Nd i A) as (s & when & Ds & T & D).
  destruct (toml_date_display s when T)
    as (y1 & y2 & y3 & y4 & m1 & m2 & d1 & d2 & -> & _ & Disp).
  assert (C : provided (city i) = true).
  { unfold accepts in A. rewrite !andb_true_iff in A. tauto. }
  destruct (city i) as [c|] eqn:Ec; [|discriminate].
  exists (body i when), c, y1, y2, y3, y4, m1, m2, d1, d2.
  assert (H : header_lines (body i when)
              = [c ++ lit ", " ++ [d1; d2; 47%N; m1; m2; 47%N; y1; y2; y3; y4]]).
  { rewrite header_lines_body, Ec. unfold date_with_city, plus.
    rewrite Disp. reflexivity. }
  repeat (split; [assumption || reflexivity|]).
  intros E. rewrite H. rewrite Ds in E. injection E as -> -> -> -> -> -> -> ->.
  reflexivity.
Qed.

(** C8 on the sample inputs: Trento, 2024-01-01. *)
Lemma header_city_and_date_sample :
  accepts ascii_digit Examples.sample_inputs = true
  /\ exists doc c y1 y2 y3 y4 m1 m2 d1 d2,
       document ascii_digit Examples.sample_inputs = Ok doc
       /\ city Examples.sample_inputs = Some c
       /\ date Examples.sample_inputs
          = Some [y1; y2; y3; y4; 45%N; m1; m2; 45%N; d1; d2]
       /\ header_lines doc
          = [c ++ lit ", " ++ [d1; d2; 47%N; m1; m2; 47%N; y1; y2; y3; y4]]
       /\ (date Examples.sample_inputs = Some (lit "2024-01-01") ->
           header_lines doc = [c ++ lit ", 01/01/2024"]).
Proof.
  split; [reflexivity|].
  apply (header_city_and_date ascii_digit Examples.sample_inputs).
  reflexivity.
Defined.

(** C10: for inputs the template accepts, the line [for-the-course]
    is given the course as it came while the lecture description is
    given the course or the placeholder; for an empty course the first
    shows nothing and the second the twenty underscores. *)
Theorem for_the_course_raw is_Nd i :
  accepts is_Nd i = true ->
  exists doc,
    document is_Nd i = Ok doc
    /\ transl_arg "for-the-course" "course" doc = [course i]
    /\ transl_arg "lecture-description" "course" doc
       = [Some (value_or_blank (course i))]
    /\ (empty (course i) = true ->
        Forall (fun v => empty v = true)
               (transl_arg "for-the-course" "course" doc)
        /\ transl_arg "lecture-description" "course" doc
           = [Some (repeat_str (lit "_") 20)]).
Proof.
  intros A.
  destruct (accepted_document is_Nd i A) as (s & when & _ & _ & D).
  exists (body i when). split; [exact D|].
  destruct (transl_arg_course_body i when) as [L F].
  split; [exact F|]. split; [exact L|].
  intros E. rewrite F, L, (value_or_blank_empty _ E).
  split; [repeat constructor; exact E | reflexivity].
Qed.

(** C10 for office hours with an empty course. *)
Lemma for_the_course_raw_office_hours :
  accepts ascii_digit Examples.office_hours_inputs = true
  /\ exists doc,
       document ascii_digit Examples.office_hours_inputs = Ok doc
       /\ transl_arg "for-the-course" "course" doc
          = [course Examples.office_hours_inputs]
       /\ transl_arg "lecture-description" "course" doc
          = [Some (value_or_blank (course Examples.office_hours_inputs))]
       /\ (empty (course Examples.office_hours_inputs) = true ->
           Forall (fun v => empty v = true)
                  (transl_arg "for-the-course" "course" doc)
           /\ transl_arg "lecture-description" "course" doc
              = [Some (repeat_str (lit "_") 20)]).
Proof.
  split; [reflexivity|].
  apply (for_the_course_raw ascii_digit Examples.office_hours_inputs).
  reflexivity.
Defined.

(** A date TOML reads has the shape of the regular expression, in
    ASCII digits. *)
Lemma toml_date_shape s when :
  toml_date s = Some when -> anchored_match ascii_digit date_regex s = true.
Proof.
  intros T.
  destruct (toml_date_display s when T)
    as (y1 & y2 & y3 & y4 & m1 & m2 & d1 & d2 & -> & Dg & _).
  cbn [forallb] in Dg. rewrite !andb_true_iff in Dg.
  destruct Dg as (A1 & A2 & A3 & A4 & A5 & A6 & A7 & A8 & _).
  cbn. rewrite A1, A2, A3, A4, A5, A6, A7, A8. reflexivity.
Qed.

(** C3 as stated fails: the date [tomorrow] has not the shape of a
    calendar date and the schema raises no issue on it, in either mode. *)
Lemma date_in_words_passes_schema :
  ~ (forall hasSubmitted,
       anchored_match ascii_digit date_regex (Form.date Examples.date_in_words)
       = false ->
       Form.error_on "date"
         (Form.DocumentBuild.createFormSchema hasSubmitted Examples.date_in_words)
       = true).
Proof.
  intros H. specialize (H false eq_refl). discriminate H.
Qed.

(** C3, amended: in both modes the schema checks the date for presence
    only, raising its one issue on [date] exactly for the empty string;
    the shape is checked where the document is built, and there every
    date that is not [yyyy-mm-dd] in ASCII digits stops the template
    with an error, whatever the other inputs. *)
Theorem date_shape_left_to_template :
  (forall hasSubmitted data,
      (Form.reports Form.too_small "date"
         (Form.DocumentBuild.createFormSchema hasSubmitted data) = true
       <-> Form.date data = [])
      /\ Form.error_on "date"
           (Form.DocumentBuild.createFormSchema hasSubmitted data)
         = Form.reports Form.too_small "date"
             (Form.DocumentBuild.createFormSchema hasSubmitted data))
  /\ (forall is_Nd i,
        year_month_day_shape (date i) = false ->
        exists e, document is_Nd i = Err e).
Proof.
  split.
  - intros hasSubmitted data.
    destruct (FormSpec.date_issue (Js.lit "office-hours") hasSubmitted data)
      as [E R].
    unfold Form.DocumentBuild.createFormSchema. rewrite E, R.
    split; [apply FormSpec.is_empty_nil | reflexivity].
  - intros is_Nd i S.
    destruct (document is_Nd i) as [doc|e] eqn:D; [|exists e; reflexivity].
    apply document_accepted in D.
    destruct D as (_ & s & when & Ds & T & _).
    unfold year_month_day_shape in S. rewrite Ds in S.
    rewrite (toml_date_shape s when T) in S. discriminate S.
Qed.

(** C3, amended, on the sample inputs with the date [tomorrow]. *)
Lemma date_shape_left_to_template_words :
  year_month_day_shape (date Examples.inputs_date_in_words) = false
  /\ exists e, document ascii_digit Examples.inputs_date_in_words = Err e.
Proof.
  split; [reflexivity|].
  apply (proj2 date_shape_left_to_template ascii_digit
           Examples.inputs_date_in_words).
  reflexivity.
Defined.

End TemplateSpec.

(** ** More on the form schema *)

Module FormMore.

Import Js Form JsFacts FormSpec.

Lemma is_empty_trimmed v :
  is_empty (trimmed v) = View.only_white_space v.
Proof.
  destruct v as [s|]; [|reflexivity]. cbn [trimmed View.only_white_space].
  destruct (forallb is_white_space s) eqn:W.
  - apply trim_nil in W. rewrite W. reflexivity.
  - destruct (trim s) eqn:T; [|reflexivity].
    apply trim_nil in T. congruence.
Qed.

Lemma truthy_literal a k :
  k <> [] -> View.truthy a && eqb a k = eqb a k.
Proof.
  intros K. destruct a as [|c a]; [|reflexivity].
  destruct k; [congruence | reflexivity].
Qed.

Lemma in_course_activities a :
  existsb (fun k => eqb a (lit k)) course_activities
  = View.shows_course a.
Proof.
  unfold View.shows_course, course_activities. cbn [existsb].
  rewrite orb_false_r, <- orb_assoc.
  destruct a as [|c a]; reflexivity.
Qed.

(** The issue on [course], as a boolean, for any listing. *)
Lemma course_issue tag data :
  reports custom "course" (createFormSchema_with tag true data)
  = View.shows_course (activity_type data)
    && View.only_white_space (course data).
Proof.
  unfold createFormSchema_with, refinement; cbn [negb].
  rewrite !reports_app, baseSchema_custom, !reports_when, !reports_addIssue.
  rewrite !blank_trimmed, !is_empty_trimmed. cbn.
  rewrite ?andb_false_r, ?andb_true_r, ?orb_false_r. cbn [orb].
  rewrite <- andb_orb_distrib_l, orb_assoc.
  unfold View.shows_course.
  destruct (activity_type data) as [|c a]; reflexivity.
Qed.

(** The issue on [professor], as a boolean, for any listing. *)
Lemma professor_issue tag data :
  reports custom "professor" (createFormSchema_with tag true data)
  = eqb (activity_type data) tag && View.only_white_space (professor data).
Proof.
  unfold createFormSchema_with, refinement; cbn [negb].
  rewrite !reports_app, baseSchema_custom, !reports_when, !reports_addIssue.
  rewrite !blank_trimmed, !is_empty_trimmed. cbn.
  rewrite ?andb_false_r, ?andb_true_r, ?orb_false_r. cbn [orb].
  reflexivity.
Qed.

(** X1: after the first submission a course made of white space only
    (spaces, tabs, line breaks, no-break spaces and the like) counts as
    missing, and any other character makes it present: in both listings
    the issue on [course] is raised exactly when the course is absent or
    all white space and the activity is lectures or an exam; the first
    listing treats [professor] the same way for office hours. *)
Theorem white_space_counts_as_missing data :
  (reports custom "course" (DocumentBuild.createFormSchema true data) = true
   <-> View.only_white_space (course data) = true
       /\ In (activity_type data) (map lit course_activities))
  /\ (reports custom "course" (DocumentBuildSaved.createFormSchema true data) = true
      <-> View.only_white_space (course data) = true
          /\ In (activity_type data) (map lit course_activities))
  /\ (reports custom "professor" (DocumentBuild.createFormSchema true data) = true
      <-> View.only_white_space (professor data) = true
          /\ activity_type data = lit "office-hours").
Proof.
  assert (C : forall tag,
             reports custom "course" (createFormSchema_with tag true data) = true
             <-> View.only_white_space (course data) = true
                 /\ In (activity_type data) (map lit course_activities)).
  { intros tag. rewrite course_issue, andb_true_iff, <- in_course_activities.
    rewrite existsb_exists. split.
    - intros [(k & Hk & E) W]. split; [exact W|].
      apply js_eqb_eq in E. rewrite E. apply in_map, Hk.
    - intros [W H]. split; [|exact W].
      apply in_map_iff in H. destruct H as (k & E & Hk).
      exists k. split; [exact Hk|]. apply js_eqb_eq. symmetry; exact E. }
  split; [apply C|]. split; [apply C|].
  unfold DocumentBuild.createFormSchema.
  rewrite professor_issue, andb_true_iff, js_eqb_eq. tauto.
Qed.

(** The refinement says nothing about an activity it does not know. *)
Lemma refinement_unknown_activity tag data :
  ~ In (activity_type data) (map lit course_activities) ->
  activity_type data <> tag ->
  refinement tag data = [].
Proof.
  intros NC NT. unfold refinement.
  assert (E1 : eqb (activity_type data) (lit "lectures") = false).
  { apply js_eqb_neq. intros E. apply NC. rewrite E. cbn. auto. }
  assert (E2 : eqb (activity_type data) (lit "oral-exam") = false).
  { apply js_eqb_neq. intros E. apply NC. rewrite E. cbn. auto. }
  assert (E3 : eqb (activity_type data) (lit "written-exam") = false).
  { apply js_eqb_neq. intros E. apply NC. rewrite E. cbn. auto. }
  assert (E4 : eqb (activity_type data) tag = false).
  { apply js_eqb_neq. exact NT. }
  rewrite E1, E2, E3, E4. reflexivity.
Qed.

(** X2: for an activity that is none of the values a listing knows, in
    particular while no activity is selected, the strict schema of that
    listing returns exactly the issues of the lenient one: no
    conditional issue fires, whatever [course] and [professor] hold. *)
Theorem unknown_activity_adds_nothing data :
  ~ In (activity_type data) (map lit course_activities) ->
  (activity_type data <> lit "office-hours" ->
   DocumentBuild.createFormSchema true data
   = DocumentBuild.createFormSchema false data)
  /\ (activity_type data <> lit "office-hours-meeting" ->
      DocumentBuildSaved.createFormSchema true data
      = DocumentBuildSaved.createFormSchema false data).
Proof.
  intros NC.
  unfold DocumentBuild.createFormSchema, DocumentBuildSaved.createFormSchema,
    createFormSchema_with; cbn [negb].
  split; intros NT; rewrite refinement_unknown_activity by assumption;
    apply app_nil_r.
Qed.

(** X2 with no activity selected and nothing else filled in. *)
Lemma unknown_activity_adds_nothing_unselected :
  (activity_type (Examples.with_activity "" Examples.lectures_without_course)
   <> lit "office-hours" ->
   DocumentBuild.createFormSchema true
     (Examples.with_activity "" Examples.lectures_without_course)
   = DocumentBuild.createFormSchema false
       (Examples.with_activity "" Examples.lectures_without_course))
  /\ (activity_type (Examples.with_activity "" Examples.lectures_without_course)
      <> lit "office-hours-meeting" ->
      DocumentBuildSaved.createFormSchema true
        (Examples.with_activity "" Examples.lectures_without_course)
      = DocumentBuildSaved.createFormSchema false
          (Examples.with_activity "" Examples.lectures_without_course)).
Proof.
  apply (unknown_activity_adds_nothing
           (Examples.with_activity "" Examples.lectures_without_course)).
  cbn. intuition discriminate.
Defined.

(** What the refinement of a listing can return: nothing, or one custom
    issue on [course] or on [professor]. *)
Lemma refinement_at_most_one tag data :
  ~ In tag (map lit course_activities) ->
  List.length (refinement tag data) <= 1
  /\ Forall (fun i => code i = custom
                      /\ (path i = ["course"] \/ path i = ["professor"]))
            (refinement tag data).
Proof.
  intros NT. unfold refinement.
  assert (F : forall k, In k course_activities -> eqb (lit k) tag = false).
  { intros k Hk. apply js_eqb_neq. intros <-. apply NT, in_map, Hk. }
  destruct (eqb (activity_type data) (lit "lectures")) eqn:E1.
  { apply js_eqb_eq in E1. rewrite E1, (F "lectures") by (cbn; auto).
    destruct (blank (course data)); cbn;
      (split; [lia | repeat (constructor; [split; [reflexivity | auto]|]);
                     constructor]). }
  destruct (eqb (activity_type data) (lit "oral-exam")) eqn:E2.
  { apply js_eqb_eq in E2. rewrite E2, (F "oral-exam") by (cbn; auto).
    destruct (blank (course data)); cbn;
      (split; [lia | repeat (constructor; [split; [reflexivity | auto]|]);
                     constructor]). }
  destruct (eqb (activity_type data) (lit "written-exam")) eqn:E3.
  { apply js_eqb_eq in E3. rewrite E3, (F "written-exam") by (cbn; auto).
    destruct (blank (course data)); cbn;
      (split; [lia | repeat (constructor; [split; [reflexivity | auto]|]);
                     constructor]). }
  destruct (eqb (activity_type data) tag), (blank (professor data)); cbn;
    (split; [lia | repeat (constructor; [split; [reflexivity | auto]|]);
                   constructor]).
Qed.

(** X3: in both listings the strict schema returns the issues of the
    lenient schema followed by at most one more, a custom issue on
    [course] or on [professor]; so whatever the strict schema accepts
    the lenient one accepts too, and one parse never asks for both a
    course and a professor. *)
Theorem strict_adds_at_most_one data :
  (exists extra,
      DocumentBuild.createFormSchema true data
      = DocumentBuild.createFormSchema false data ++ extra
      /\ List.length extra <= 1
      /\ Forall (fun i => code i = custom
                          /\ (path i = ["course"] \/ path i = ["professor"]))
                extra)
  /\ (exists extra,
         DocumentBuildSaved.createFormSchema true data
         = DocumentBuildSaved.createFormSchema false data ++ extra
         /\ List.length extra <= 1
         /\ Forall (fun i => code i = custom
                             /\ (path i = ["course"] \/ path i = ["professor"]))
                   extra).
Proof.
  split.
  - exists (refinement (lit "office-hours") data).
    split; [reflexivity|]. apply refinement_at_most_one.
    cbn. intuition discriminate.
  - exists (refinement (lit "office-hours-meeting") data).
    split; [reflexivity|]. apply refinement_at_most_one.
    cbn. intuition discriminate.
Qed.

(** X4: in each listing the form asks for a conditional field exactly
    where it shows it: after the first submission the issue on [course]
    (on [professor]) is raised if and only if the course (professor)
    input is rendered for the selected activity and holds nothing but
    white space; so an issue never lands on a field that is not on
    screen. *)
Theorem issues_land_on_shown_fields data :
  reports custom "course" (DocumentBuild.createFormSchema true data)
  = View.shows_course (activity_type data)
    && View.only_white_space (course data)
  /\ reports custom "professor" (DocumentBuild.createFormSchema true data)
     = View.DocumentBuild.shows_professor (activity_type data)
       && View.only_white_space (professor data)
  /\ reports custom "course" (DocumentBuildSaved.createFormSchema true data)
     = View.shows_course (activity_type data)
       && View.only_white_space (course data)
  /\ reports custom "professor" (DocumentBuildSaved.createFormSchema true data)
     = View.DocumentBuildSaved.shows_professor (activity_type data)
       && View.only_white_space (professor data).
Proof.
  unfold DocumentBuild.createFormSchema, DocumentBuildSaved.createFormSchema,
    View.DocumentBuild.shows_professor, View.DocumentBuildSaved.shows_professor.
  rewrite !course_issue, !professor_issue, !truthy_literal by discriminate.
  repeat split; reflexivity.
Qed.

End FormMore.

(** ** More on the component state *)

Module SessionMore.

Import Session SessionSpec.

(** The three ways a submission can go. *)
Lemma submit_cases values s :
  (isGenerating s = true
   /\ step s (Submit values) = setErrors (resolver (render s) values) s)
  \/ (isGenerating s = false
      /\ resolver (render s) values = []
      /\ step s (Submit values)
         = {| hasSubmittedOnce := true; isGenerating := true; errors := [];
              pending := pending s ++ [documentInputs values] |})
  \/ (isGenerating s = false
      /\ resolver (render s) values <> []
      /\ step s (Submit values) = setErrors (resolver (render s) values) s).
Proof.
  destruct (isGenerating s) eqn:G.
  - left. split; [reflexivity|]. apply submit_while_generating, G.
  - right. destruct (resolver (render s) values) eqn:E.
    + left. split; [reflexivity|]. split; [reflexivity|].
      apply submit_sends; assumption.
    + right. split; [reflexivity|]. split; [discriminate|].
      rewrite <- E. apply submit_rejected. rewrite E. discriminate.
Qed.

Lemma resolver_base values s :
  hasSubmittedOnce s = false ->
  resolver (render s) values = Form.baseSchema values.
Proof.
  intros H. unfold resolver, render. cbn. rewrite H. reflexivity.
Qed.

Lemma resolver_strict values s :
  hasSubmittedOnce s = true ->
  resolver (render s) values = Form.DocumentBuild.createFormSchema true values.
Proof.
  intros H. unfold resolver, render. cbn. rewrite H. reflexivity.
Qed.

(** What the resolver accepts, the base schema accepts. *)
Lemma resolver_nil_base values s :
  resolver (render s) values = [] -> Form.baseSchema values = [].
Proof.
  unfold resolver, Form.DocumentBuild.createFormSchema,
    Form.createFormSchema_with.
  destruct (negb (r_hasSubmittedOnce (render s))); [auto|].
  intros H. apply app_eq_nil in H. tauto.
Qed.

Lemma step_flag s ev :
  Requests.flagged s ->
  Requests.flagged (step s ev)
  /\ hasSubmittedOnce (step s ev)
     = hasSubmittedOnce s || Requests.passes_base ev.
Proof.
  unfold Requests.flagged. intros J. destruct ev as [values | ok].
  - destruct (submit_cases values s) as [[G E] | [(G & R & E) | (G & R & E)]];
      rewrite E; cbn.
    + rewrite (J G). auto.
    + split; [reflexivity|].
      rewrite (resolver_nil_base _ _ R). cbn. rewrite orb_true_r. reflexivity.
    + split; [exact J|].
      destruct (hasSubmittedOnce s) eqn:H; [reflexivity|].
      rewrite resolver_base in R by exact H.
      destruct (Form.baseSchema values); [congruence | reflexivity].
  - cbn. unfold settled.
    destruct (pending s); cbn; [rewrite orb_false_r; auto|].
    rewrite orb_false_r. split; [discriminate | reflexivity].
Qed.

Lemma run_flag evs : forall s,
  Requests.flagged s ->
  hasSubmittedOnce (run s evs)
  = hasSubmittedOnce s || existsb Requests.passes_base evs.
Proof.
  induction evs as [|ev evs IH]; intros s J; cbn [run fold_left existsb].
  - rewrite orb_false_r. reflexivity.
  - destruct (step_flag s ev J) as [J' E].
    change (fold_left step evs (step s ev)) with (run (step s ev) evs).
    rewrite (IH _ J'), E, orb_assoc. reflexivity.
Qed.

(** X5: [hasSubmittedOnce] is set by the first submission whose values
    the base schema accepts, and by nothing else: after any sequence of
    submissions and settled requests it is true exactly when one of the
    submissions passed the base schema.  A first submission with a
    required field empty leaves the form in its lenient mode. *)
Theorem flag_set_by_first_accepted_submission evs :
  hasSubmittedOnce (run mount evs) = existsb Requests.passes_base evs.
Proof.
  rewrite run_flag; [reflexivity|]. unfold Requests.flagged. cbn. discriminate.
Qed.

(** X6: once [hasSubmittedOnce] is true it stays true, whatever is
    submitted or settled afterwards. *)
Theorem flag_never_reverts s evs :
  hasSubmittedOnce s = true -> hasSubmittedOnce (run s evs) = true.
Proof.
  revert s. induction evs as [|ev evs IH]; intros s H; [exact H|].
  apply IH. destruct ev as [values | ok].
  - destruct (submit_cases values s) as [[G E] | [(G & R & E) | (G & R & E)]];
      rewrite E; cbn; auto.
  - cbn. unfold settled. destruct (pending s); cbn; exact H.
Qed.

(** X6 on the run of the scenario. *)
Lemma flag_never_reverts_scenario :
  hasSubmittedOnce (step mount (Submit Examples.lectures_without_course)) = true
  /\ hasSubmittedOnce
       (run (step mount (Submit Examples.lectures_without_course))
            [ Settled false; Submit Examples.no_name_no_course;
              Submit Examples.lectures_without_course ]) = true.
Proof.
  split; [reflexivity|].
  apply (flag_never_reverts
           (step mount (Submit Examples.lectures_without_course))).
  reflexivity.
Defined.

(** Values the base schema accepts have the seven required fields
    filled. *)
Lemma baseSchema_nil values :
  Form.baseSchema values = [] ->
  View.truthy (Form.activity_type values) = true
  /\ View.truthy (Form.language values) = true
  /\ View.truthy (Form.name values) = true
  /\ View.truthy (Form.id values) = true
  /\ View.truthy (Form.degree values) = true
  /\ View.truthy (Form.date values) = true
  /\ View.truthy (Form.city values) = true.
Proof.
  unfold Form.baseSchema.
  destruct (Form.activity_type values), (Form.language values),
    (Form.name values), (Form.id values), (Form.degree values),
    (Form.date values), (Form.city values); cbn;
    try discriminate; intros _; repeat split; reflexivity.
Qed.

Lemma documentInputs_complete values :
  Form.baseSchema values = [] ->
  Requests.complete (documentInputs values) = true.
Proof.
  intros B. apply baseSchema_nil in B.
  destruct B as (A & L & N & I & D & T & C).
  unfold Requests.complete, documentInputs. cbn.
  rewrite A, L, N, I, D, T, C. cbn.
  destruct (Form.image_path values) as [[|c p]|]; reflexivity.
Qed.

Lemma step_complete s ev :
  forallb Requests.complete (pending s) = true ->
  forallb Requests.complete (pending (step s ev)) = true.
Proof.
  intros F. destruct ev as [values | ok].
  - destruct (submit_cases values s) as [[G E] | [(G & R & E) | (G & R & E)]];
      rewrite E; cbn; auto.
    rewrite forallb_app, F. cbn.
    rewrite (documentInputs_complete _ (resolver_nil_base _ _ R)).
    reflexivity.
  - cbn. unfold settled. destruct (pending s) as [|r p] eqn:P; cbn.
    + rewrite P. reflexivity.
    + cbn in F. apply andb_true_iff in F. tauto.
Qed.

(** X7: no request is ever sent with one of the fields the template
    insists on left empty: in every state the session reaches, the
    request that is out has a non-empty language, name, id, degree,
    date, city and activity, and an image path, which defaults to
    [imgs/unitn.jpg]. *)
Theorem requests_are_complete evs :
  forallb Requests.complete (pending (run mount evs)) = true.
Proof.
  assert (G : forall s, forallb Requests.complete (pending s) = true ->
                        forallb Requests.complete (pending (run s evs)) = true).
  { induction evs as [|ev evs IH]; intros s F; [exact F|].
    apply IH, step_complete, F. }
  apply G. reflexivity.
Qed.

(** X8: once [hasSubmittedOnce] is true, a submission sends a request
    only if its values pass the strict schema, course and professor
    rules included. *)
Theorem strict_once_flagged s values :
  hasSubmittedOnce s = true ->
  pending (step s (Submit values)) <> pending s ->
  Form.DocumentBuild.createFormSchema true values = []
  /\ pending (step s (Submit values)) = pending s ++ [documentInputs values].
Proof.
  intros H P.
  destruct (submit_cases values s) as [[G E] | [(G & R & E) | (G & R & E)]];
    rewrite E in *; cbn in P; try congruence.
  rewrite resolver_strict in R by exact H. split; [exact R | reflexivity].
Qed.

(** X8 on the scenario: the second submission, with the course filled
    in, is the one that passes the strict schema. *)
Lemma strict_once_flagged_scenario :
  Form.DocumentBuild.createFormSchema true
    (Examples.with_course "Advanced Programming"
       Examples.lectures_without_course) = []
  /\ pending
       (step (run mount [ Submit Examples.lectures_without_course;
                          Settled false ])
             (Submit (Examples.with_course "Advanced Programming"
                        Examples.lectures_without_course)))
     = pending (run mount [ Submit Examples.lectures_without_course;
                            Settled false ])
       ++ [documentInputs (Examples.with_course "Advanced Programming"
                             Examples.lectures_without_course)].
Proof.
  apply (strict_once_flagged
           (run mount [ Submit Examples.lectures_without_course;
                        Settled false ])
           (Examples.with_course "Advanced Programming"
              Examples.lectures_without_course)).
  - reflexivity.
  - cbn. discriminate.
Defined.

End SessionMore.

(** ** More on the template *)

Module TemplateMore.

Import Typst Template TypstFacts TemplateSpec.

(** X9: the assertion of lines 77-84, that at most one activity is
    selected, cannot fail: whatever the inputs, the template never stops
    with its message.  The activity is one value, so at most one of the
    four comparisons holds. *)
Theorem exclusivity_assertion_never_fails is_Nd i :
  preamble is_Nd i
  <> Err (AssertionFailed
            "At most one of lectures, oral-exam, written-exam, office-hours can be true.").
Proof.
  unfold preamble, check_date, parse_date, str_match, assert, bind.
  destruct (provided (name i)); [|discriminate].
  destruct (provided (id i)); [|discriminate].
  destruct (provided (degree i)); [|discriminate].
  destruct (date i) as [s|]; [|discriminate].
  destruct (anchored_match is_Nd date_regex s); [|discriminate].
  cbn [dict_len Nat.ltb Nat.leb].
  destruct (provided (city i)); [|discriminate].
  destruct (provided (image_path i)); [|discriminate].
  destruct (provided (language i)); [|discriminate].
  destruct (in_activities (activity_type i)); [|cbv; discriminate].
  destruct (toml_date s); [|discriminate].
  rewrite at_most_one_activity. discriminate.
Qed.

(** X10: the professor is never missing from a document: wherever the
    professor appears the text is not empty, a professor that was given
    appears unchanged and one that was not appears as twenty
    underscores. *)
Theorem professor_always_shown is_Nd i doc :
  document is_Nd i = Ok doc ->
  Forall (fun v => empty v = false) (occurrences "professor" doc)
  /\ (empty (professor i) = false -> occurrences "professor" doc = [professor i])
  /\ (empty (professor i) = true ->
      occurrences "professor" doc = [Some (repeat_str (lit "_") 20)]).
Proof.
  intros D. apply document_accepted in D.
  destruct D as (_ & s & when & _ & _ & ->).
  rewrite occurrences_professor_body.
  split; [|split].
  - repeat constructor. cbn [empty].
    pose proof (value_or_blank_shown (professor i)) as P.
    apply Nat.eqb_neq. lia.
  - intros E. destruct (professor i) as [a|]; [|discriminate].
    cbn in E. cbn [value_or_blank]. rewrite E. reflexivity.
  - intros E. rewrite (value_or_blank_empty _ E). reflexivity.
Qed.

(** X10 on the sample inputs. *)
Lemma professor_always_shown_sample :
  Forall (fun v => empty v = false)
         (occurrences "professor" (body Examples.sample_inputs
            {| year := 2024; month := 1; day := 1 |}))
  /\ (empty (professor Examples.sample_inputs) = false ->
      occurrences "professor" (body Examples.sample_inputs
         {| year := 2024; month := 1; day := 1 |})
      = [professor Examples.sample_inputs])
  /\ (empty (professor Examples.sample_inputs) = true ->
      occurrences "professor" (body Examples.sample_inputs
         {| year := 2024; month := 1; day := 1 |})
      = [Some (repeat_str (lit "_") 20)]).
Proof.
  apply (professor_always_shown ascii_digit Examples.sample_inputs).
  reflexivity.
Defined.

Lemma unmark_body i when :
  map Layout.unmark (body i when)
  = map Layout.unmark (body (Layout.with_activity_type None i) when).
Proof.
  unfold body, lectures_section, exams_section, office_hours_section.
  cbn [activity_type Layout.with_activity_type equals].
  destruct (equals (activity_type i) "lectures"),
    (equals (activity_type i) "written-exam"),
    (equals (activity_type i) "oral-exam"),
    (equals (activity_type i) "office-hours"); reflexivity.
Qed.

(** X11: the activity decides the check marks and nothing else: two
    documents built from inputs that differ in the activity only are
    equal once the marks are taken off, so every branch and every text
    is laid out whichever activity is chosen. *)
Theorem activity_changes_marks_only is_Nd i a doc doc' :
  document is_Nd i = Ok doc ->
  document is_Nd (Layout.with_activity_type a i) = Ok doc' ->
  map Layout.unmark doc = map Layout.unmark doc'.
Proof.
  intros D D'. apply document_accepted in D. apply document_accepted in D'.
  destruct D as (_ & s & when & Ds & T & ->).
  destruct D' as (_ & s' & when' & Ds' & T' & ->).
  cbn [date Layout.with_activity_type] in Ds'.
  assert (s' = s) by congruence. subst s'.
  assert (when' = when) by congruence. subst when'.
  rewrite (unmark_body i when),
    (unmark_body (Layout.with_activity_type a i) when).
  reflexivity.
Qed.

(** X11 on the sample inputs, lectures against office hours. *)
Lemma activity_changes_marks_only_sample :
  map Layout.unmark
      (body Examples.sample_inputs {| year := 2024; month := 1; day := 1 |})
  = map Layout.unmark
        (body (Layout.with_activity_type (Some (lit "office-hours"))
                 Examples.sample_inputs)
              {| year := 2024; month := 1; day := 1 |}).
Proof.
  apply (activity_changes_marks_only ascii_digit Examples.sample_inputs
           (Some (lit "office-hours"))); reflexivity.
Defined.

(** X12: what a document presupposes.  Whatever decimal digits the
    class [\d] holds, the template gets past its assertions and the
    parsing of the date, and so lays a document out, only for inputs in
    which name, id, degree, city, image path and language are non-empty
    strings, the activity is one of the four values and the date is a
    calendar day written [yyyy-mm-dd] in ASCII digits. *)
Theorem document_only_when_accepted is_Nd i doc :
  document is_Nd i = Ok doc -> accepts ascii_digit i = true.
Proof.
  intros D. apply document_accepted in D.
  destruct D as (A & s & when & Ds & T & _).
  unfold accepts in *. rewrite Ds in *. rewrite T in *.
  rewrite (toml_date_shape s when T).
  rewrite !andb_true_iff in A. rewrite !andb_true_iff. tauto.
Qed.

(** X12 on the sample inputs. *)
Lemma document_only_when_accepted_sample :
  accepts ascii_digit Examples.sample_inputs = true.
Proof.
  apply (document_only_when_accepted ascii_digit Examples.sample_inputs
           (body Examples.sample_inputs {| year := 2024; month := 1; day := 1 |})).
  reflexivity.
Defined.

(** X13: [value-or-blank] never returns the empty string, returns a
    non-empty string unchanged, and applied twice does what it does
    applied once. *)
Theorem value_or_blank_never_empty v :
  0 < len (value_or_blank v)
  /\ (empty v = false -> Some (value_or_blank v) = v)
  /\ value_or_blank (Some (value_or_blank v)) = value_or_blank v.
Proof.
  split; [apply value_or_blank_shown|]. split.
  - destruct v as [a|]; [|discriminate]. cbn. intros ->. reflexivity.
  - pose proof (value_or_blank_shown v) as P.
    change (value_or_blank (Some (value_or_blank v)))
      with (if len (value_or_blank v) =? 0
            then repeat_str (lit "_") 20 else value_or_blank v).
    destruct (len (value_or_blank v) =? 0) eqn:E; [|reflexivity].
    apply Nat.eqb_eq in E. lia.
Qed.

End TemplateMore.

(** ** Saved answers *)

Module SavedSpec.

Import Js JsFacts Saved.

Lemma split_without sep s :
  forallb (fun c => negb (N.eqb c sep)) s = true -> split sep s = [s].
Proof.
  induction s as [|c s IH]; cbn; [reflexivity|].
  rewrite andb_true_iff, negb_true_iff. intros [C R].
  rewrite C, (IH R). reflexivity.
Qed.

Lemma split_at sep a b :
  forallb (fun c => negb (N.eqb c sep)) a = true ->
  split sep (a ++ sep :: b) = a :: split sep b.
Proof.
  induction a as [|c a IH]; cbn.
  - rewrite N.eqb_refl. reflexivity.
  - rewrite andb_true_iff, negb_true_iff. intros [C R].
    rewrite C, (IH R). reflexivity.
Qed.

Lemma split_after sep c s :
  N.eqb c sep = false ->
  exists piece pieces,
    split sep s = piece :: pieces
    /\ split sep (c :: s) = (c :: piece) :: pieces.
Proof.
  intros C. cbn. rewrite C.
  destruct (split sep s) as [|piece pieces] eqn:E.
  - destruct s; cbn in E; [discriminate|].
    destruct (N.eqb n sep); [discriminate|].
    destruct (split sep s); discriminate.
  - exists piece, pieces. auto.
Qed.

Lemma trimStart_kept s :
  forallb (fun c => negb (is_white_space c)) s = true -> trimStart s = s.
Proof.
  destruct s as [|c s]; cbn; [reflexivity|].
  rewrite andb_true_iff, negb_true_iff. intros [C _]. rewrite C. reflexivity.
Qed.

(** Text without white space is left alone by [trim]. *)
Lemma trim_kept s :
  forallb (fun c => negb (is_white_space c)) s = true -> trim s = s.
Proof.
  intros W. unfold trim, trimEnd.
  rewrite (trimStart_kept s W), trimStart_kept, rev_involutive; [reflexivity|].
  rewrite forallb_forall in *. intros c Hc. apply W, in_rev, Hc.
Qed.

Lemma plain_parts s :
  forallb plain s = true ->
  forallb (fun c => negb (is_white_space c)) s = true
  /\ forallb (fun c => negb (N.eqb c 59)) s = true
  /\ forallb (fun c => negb (N.eqb c 61)) s = true.
Proof.
  rewrite !forallb_forall. intros P.
  repeat split; intros c Hc; specialize (P c Hc); unfold plain in P;
    rewrite !andb_true_iff in P; tauto.
Qed.

(** A pair of plain texts holds no white space and no semicolon, and
    splits at its [=] into the two texts. *)
Lemma pair_plain k v :
  forallb plain k = true -> forallb plain v = true ->
  forallb (fun c => negb (is_white_space c)) (pair (k, v)) = true
  /\ forallb (fun c => negb (N.eqb c 59)) (pair (k, v)) = true
  /\ split 61 (pair (k, v)) = [k; v].
Proof.
  intros K V. apply plain_parts in K. apply plain_parts in V.
  destruct K as (K1 & K2 & K3). destruct V as (V1 & V2 & V3).
  unfold pair. cbn [fst snd]. change (lit "=") with [61%N].
  rewrite !forallb_app, K1, K2, V1, V2. cbn.
  repeat split.
  change (k ++ 61%N :: v) with (k ++ 61%N :: v).
  rewrite (split_at 61 k v K3), (split_without 61 v V3). reflexivity.
Qed.

(** The pieces of the cookie text, one for each pair of the jar, each
    trimming back to its pair. *)
Lemma split_cookie_string kv jar :
  well_formed (kv :: jar) = true ->
  Forall2 (fun piece q => trim piece = pair q)
          (split 59 (cookie_string (kv :: jar))) (kv :: jar).
Proof.
  revert kv. induction jar as [|kv' jar IH]; intros [k v] W.
  - cbn in W. rewrite andb_true_r in W. apply andb_true_iff in W.
    destruct W as [K V].
    destruct (pair_plain k v K V) as (P1 & P2 & _).
    cbn [cookie_string]. rewrite (split_without 59 _ P2).
    repeat constructor. apply trim_kept, P1.
  - cbn [well_formed forallb] in W. apply andb_true_iff in W.
    destruct W as [W1 W2]. cbn [fst snd] in W1.
    apply andb_true_iff in W1. destruct W1 as [K V].
    destruct (pair_plain k v K V) as (P1 & P2 & _).
    pose proof (IH kv' W2) as F.
    destruct (split_after 59 32 (cookie_string (kv' :: jar)) eq_refl)
      as (piece & pieces' & S1 & S2).
    rewrite S1 in F.
    inversion F as [|? ? ? ? T F']; subst.
    change (cookie_string ((k, v) :: kv' :: jar))
      with (pair (k, v) ++ 59%N :: (32%N :: cookie_string (kv' :: jar))).
    rewrite (split_at 59 _ _ P2), S2.
    constructor; [apply trim_kept, P1|].
    constructor; [exact T | exact F'].
Qed.

Lemma find_cookie_lookup decodeURIComponent name pieces jar :
  well_formed jar = true ->
  Forall2 (fun piece q => trim piece = pair q) pieces jar ->
  find_cookie decodeURIComponent name pieces
  = decoded decodeURIComponent (lookup name jar).
Proof.
  intros W F. induction F as [|piece [k v] pieces jar T F IH]; [reflexivity|].
  cbn [well_formed forallb] in W. apply andb_true_iff in W.
  destruct W as [W1 W2]. cbn [fst snd] in W1.
  apply andb_true_iff in W1. destruct W1 as [K V].
  destruct (pair_plain k v K V) as (_ & _ & S).
  cbn [find_cookie lookup]. rewrite T, S.
  destruct (eqb k name); [reflexivity | apply IH, W2].
Qed.

Lemma getCookie_lookup decodeURIComponent name jar :
  well_formed jar = true ->
  name <> [] ->
  getCookie true true decodeURIComponent (cookie_string jar) name
  = decoded decodeURIComponent (lookup name jar).
Proof.
  intros W N. unfold getCookie. cbn [negb orb].
  destruct jar as [|kv jar].
  - destruct name as [|c name]; [congruence | reflexivity].
  - apply find_cookie_lookup; [exact W | apply split_cookie_string, W].
Qed.

(** X14: [getCookie] is a lookup in the cookie jar.  When
    [document.cookie] reads as pairs [name=value] separated by [; ],
    with names and values free of white space, [;] and [=] (as the
    values [setCookie] writes are), [getCookie] of a non-empty name
    returns [null] if no pair has that name and otherwise the decoding
    of the value of the first such pair, throwing when it cannot be
    decoded; on an empty jar it returns [null]. *)
Theorem getCookie_finds_stored_value decodeURIComponent name jar :
  well_formed jar = true ->
  name <> [] ->
  getCookie true true decodeURIComponent (cookie_string jar) name
  = decoded decodeURIComponent (lookup name jar)
  /\ getCookie true true decodeURIComponent (lit "") name = Return None.
Proof.
  intros W N. split; [apply getCookie_lookup; assumption|].
  apply (getCookie_lookup decodeURIComponent name [] eq_refl N).
Qed.

(** X14 on a jar of two cookies. *)
Lemma getCookie_finds_stored_value_two :
  getCookie true true decode_plain
    (cookie_string [(lit "theme", lit "dark"); (lit "student_id", lit "12345678")])
    (lit "student_id")
  = decoded decode_plain
      (lookup (lit "student_id")
         [(lit "theme", lit "dark"); (lit "student_id", lit "12345678")])
  /\ getCookie true true decode_plain (lit "") (lit "student_id") = Return None.
Proof.
  apply (getCookie_finds_stored_value decode_plain (lit "student_id")
           [(lit "theme", lit "dark"); (lit "student_id", lit "12345678")]).
  - reflexivity.
  - discriminate.
Defined.

Lemma or_default_empty s : or_default (Some s) (lit "") = s.
Proof. destruct s; reflexivity. Qed.

(** X15: the saved answers load back.  In a browser, with the two URI
    functions inverse to each other and encoded text free of white
    space, [;] and [=], [saveUserDataToCookies] assigns five cookies,
    [student_name], [student_id], [student_degree], [student_city] and
    [student_language], each holding the encoded value and expiring in
    thirty days; and when [document.cookie] reads those five pairs,
    [loadSavedUserData] returns the five values that were saved. *)
Theorem saved_answers_load_back
  (encodeURIComponent decodeURIComponent : list N -> option (list N))
  (toUTCString_in_days : nat -> list N) n i d c l en ei ed ec el :
  (forall v e, encodeURIComponent v = Some e ->
               forallb plain e = true /\ decodeURIComponent e = Some v) ->
  encodeURIComponent n = Some en ->
  encodeURIComponent i = Some ei ->
  encodeURIComponent d = Some ed ->
  encodeURIComponent c = Some ec ->
  encodeURIComponent l = Some el ->
  saveUserDataToCookies true true encodeURIComponent toUTCString_in_days
    n i d c l []
  = (map (fun kv => pair kv ++ attributes (toUTCString_in_days 30))
         [ (lit "student_name", en); (lit "student_id", ei);
           (lit "student_degree", ed); (lit "student_city", ec);
           (lit "student_language", el) ],
     true)
  /\ loadSavedUserData true true decodeURIComponent
       (cookie_string
          [ (lit "student_name", en); (lit "student_id", ei);
            (lit "student_degree", ed); (lit "student_city", ec);
            (lit "student_language", el) ])
     = Return {| name := n; id := i; degree := d; city := c; language := l |}.
Proof.
  intros H Hn Hi Hd Hc Hl.
  destruct (H _ _ Hn) as [Pn Dn]. destruct (H _ _ Hi) as [Pi Di].
  destruct (H _ _ Hd) as [Pd Dd]. destruct (H _ _ Hc) as [Pc Dc].
  destruct (H _ _ Hl) as [Pl Dl].
  split.
  - unfold saveUserDataToCookies, then_set, setCookie. cbn [negb orb].
    rewrite Hn. cbn [fst snd]. rewrite Hi. cbn [fst snd].
    rewrite Hd. cbn [fst snd]. rewrite Hc. cbn [fst snd]. rewrite Hl.
    unfold pair, attributes. cbn [map fst snd app].
    rewrite <- !app_assoc. reflexivity.
  - assert (W : well_formed
                  [ (lit "student_name", en); (lit "student_id", ei);
                    (lit "student_degree", ed); (lit "student_city", ec);
                    (lit "student_language", el) ] = true).
    { cbn [well_formed forallb fst snd]. rewrite Pn, Pi, Pd, Pc, Pl.
      reflexivity. }
    unfold loadSavedUserData. cbn [negb].
    rewrite !(getCookie_lookup decodeURIComponent _ _ W) by discriminate.
    match goal with |- context [lookup (lit "student_name") ?j] =>
      change (lookup (lit "student_name") j) with (Some en);
      change (lookup (lit "student_id") j) with (Some ei);
      change (lookup (lit "student_degree") j) with (Some ed);
      change (lookup (lit "student_city") j) with (Some ec);
      change (lookup (lit "student_language") j) with (Some el)
    end.
    cbn [decoded]. rewrite Dn, Di, Dd, Dc, Dl. cbn [and_then].
    rewrite !or_default_empty. reflexivity.
Qed.

(** X15 for answers that need no escaping. *)
Lemma saved_answers_load_back_plain :
  saveUserDataToCookies true true encode_plain
    (fun _ => lit "Thu, 01 Jan 2026 00:00:00 GMT")
    (lit "Elena") (lit "12345678") (lit "Informatica") (lit "Trento")
    (lit "it") []
  = (map (fun kv => pair kv ++ attributes (lit "Thu, 01 Jan 2026 00:00:00 GMT"))
         [ (lit "student_name", lit "Elena");
           (lit "student_id", lit "12345678");
           (lit "student_degree", lit "Informatica");
           (lit "student_city", lit "Trento");
           (lit "student_language", lit "it") ],
     true)
  /\ loadSavedUserData true true decode_plain
       (cookie_string
          [ (lit "student_name", lit "Elena");
            (lit "student_id", lit "12345678");
            (lit "student_degree", lit "Informatica");
            (lit "student_city", lit "Trento");
            (lit "student_language", lit "it") ])
     = Return {| name := lit "Elena"; id := lit "12345678";
                 degree := lit "Informatica"; city := lit "Trento";
                 language := lit "it" |}.
Proof.
  apply (saved_answers_load_back encode_plain decode_plain
           (fun _ => lit "Thu, 01 Jan 2026 00:00:00 GMT")
           (lit "Elena") (lit "12345678") (lit "Informatica") (lit "Trento")
           (lit "it")).
  - intros v e. unfold encode_plain, decode_plain.
    destruct (forallb plain v) eqn:P; [|discriminate].
    intros E. injection E as <-. split; [exact P | reflexivity].
  - reflexivity.
  - reflexivity.
  - reflexivity.
  - reflexivity.
  - reflexivity.
Defined.

Section SecondListing.

Variable has_window : bool.
Variable has_document : bool.
Variable encodeURIComponent : list N -> option (list N).
Variable toUTCString_in_days : nat -> list N.

Local Abbreviation step :=
  (Saved.step has_window has_document encodeURIComponent toUTCString_in_days).
Local Abbreviation run :=
  (Saved.run has_window has_document encodeURIComponent toUTCString_in_days).

(** What a submission does in the second listing. *)
Lemma saved_submit_cases values st :
  (Session.isGenerating (session st) = true
   /\ step st (Session.Submit values)
      = {| session :=
             Session.setErrors
               (resolver (Session.render (session st)) values) (session st);
           assigned := assigned st |})
  \/ (Session.isGenerating (session st) = false
      /\ resolver (Session.render (session st)) values <> []
      /\ step st (Session.Submit values)
         = {| session :=
                Session.setErrors
                  (resolver (Session.render (session st)) values) (session st);
              assigned := assigned st |})
  \/ (Session.isGenerating (session st) = false
      /\ resolver (Session.render (session st)) values = []
      /\ exists written returned,
           saveUserDataToCookies has_window has_document encodeURIComponent
             toUTCString_in_days (Form.name values) (Form.id values)
             (Form.degree values) (Form.city values) (Form.language values)
             (assigned st) = (written, returned)
           /\ step st (Session.Submit values)
              = {| session :=
                     {| Session.hasSubmittedOnce := true;
                        Session.isGenerating := returned;
                        Session.errors := [];
                        Session.pending :=
                          if returned
                          then Session.pending (session st)
                               ++ [Session.documentInputs values]
                          else Session.pending (session st) |};
                   assigned := written |}).
Proof.
  unfold Saved.step, handleSubmit, onSubmit, trigger.
  destruct st as [[h g er p] a].
  cbn [session assigned Session.render Session.r_isGenerating
       Session.r_hasSubmittedOnce Session.isGenerating
       Session.hasSubmittedOnce].
  destruct (resolver _ values) as [|x e] eqn:E; destruct g.
  - left. split; reflexivity.
  - right. right. split; [reflexivity|]. split; [reflexivity|].
    destruct (saveUserDataToCookies has_window has_document
                encodeURIComponent toUTCString_in_days (Form.name values)
                (Form.id values) (Form.degree values) (Form.city values)
                (Form.language values) a) as [written returned] eqn:S.
    exists written, returned. split; [reflexivity|].
    cbn [Session.isEmptyObject session assigned].
    destruct h; cbn [negb]; rewrite ?E;
      cbn [Session.isEmptyObject Session.setErrors Session.setHasSubmittedOnce
           Session.hasSubmittedOnce Session.isGenerating Session.errors
           Session.pending session assigned];
      rewrite ?S; destruct returned; reflexivity.
  - left. split; reflexivity.
  - right. left. split; [reflexivity|]. split; [discriminate | reflexivity].
Qed.

(** Each call of [setCookie] by [saveUserDataToCookies] adds at most an
    assignment of its own name. *)
Lemma then_set_saved k value st :
  In k saved_keys ->
  forallb sets_saved_key (fst st) = true ->
  forallb sets_saved_key
    (fst (then_set has_window has_document encodeURIComponent
            toUTCString_in_days (lit k) value st)) = true.
Proof.
  intros K F. unfold then_set, setCookie.
  destruct (snd st); [|exact F].
  destruct (negb has_window || negb has_document); [exact F|].
  destruct (encodeURIComponent value) as [e|]; [|exact F].
  cbn [fst]. rewrite forallb_app, F. cbn [forallb andb].
  rewrite andb_true_r.
  cbn in K. destruct K as [<- | [<- | [<- | [<- | [<- | []]]]]]; reflexivity.
Qed.

Lemma save_saved n i d c l a :
  forallb sets_saved_key a = true ->
  forallb sets_saved_key
    (fst (saveUserDataToCookies has_window has_document encodeURIComponent
            toUTCString_in_days n i d c l a)) = true.
Proof.
  intros F. unfold saveUserDataToCookies.
  repeat (apply then_set_saved; [cbn; tauto|]).
  apply (then_set_saved "student_name" n (a, true)); [cbn; tauto | exact F].
Qed.

Lemma saved_step_keys st ev :
  forallb sets_saved_key (assigned st) = true ->
  forallb sets_saved_key (assigned (step st ev)) = true.
Proof.
  intros F. destruct ev as [values | ok]; [|exact F].
  destruct (saved_submit_cases values st)
    as [[Gen E] | [(Gen & R & E) | (Gen & R & w & r & S & E)]];
    rewrite E; cbn [assigned]; try exact F.
  pose proof (save_saved (Form.name values) (Form.id values)
                (Form.degree values) (Form.city values)
                (Form.language values) (assigned st) F) as K.
  rewrite S in K. exact K.
Qed.

(** X17: the only cookies the second listing ever writes are the five
    saved answers: every assignment made to [document.cookie] in any run
    sets [student_name], [student_id], [student_degree], [student_city]
    or [student_language]; the activity, the course and the professor
    are never stored. *)
Theorem only_saved_answers_stored evs :
  forallb sets_saved_key (assigned (run mount evs)) = true.
Proof.
  unfold Saved.run.
  assert (G : forall s,
             forallb sets_saved_key (assigned s) = true ->
             forallb sets_saved_key
               (assigned (fold_left
                            (Saved.step has_window has_document
                               encodeURIComponent toUTCString_in_days)
                            evs s)) = true).
  { induction evs as [|ev evs IH]; intros s F; [exact F|].
    apply IH, (saved_step_keys s ev), F. }
  apply G. reflexivity.
Qed.

(** X18: a form that was just loaded cannot be sent as it is.
    Whatever the cookies hold, and whether or not loading failed, the
    activity is unselected and course and professor are empty after
    [loadData]; a submission of these values raises the issue on
    [activity_type] and none on [course] or [professor], sends no
    request, writes no cookie and leaves [hasSubmittedOnce] false. *)
Theorem loaded_form_needs_an_activity fetched saved at_mount at_load :
  let values := values_after_load fetched saved at_mount at_load in
  Form.activity_type values = lit ""
  /\ Form.course values = Some (lit "")
  /\ Form.professor values = Some (lit "")
  /\ Form.reports Form.too_small "activity_type"
       (Session.errors (session (step mount (Session.Submit values)))) = true
  /\ Form.error_on "course"
       (Session.errors (session (step mount (Session.Submit values)))) = false
  /\ Form.error_on "professor"
       (Session.errors (session (step mount (Session.Submit values)))) = false
  /\ Session.pending (session (step mount (Session.Submit values))) = []
  /\ assigned (step mount (Session.Submit values)) = []
  /\ Session.hasSubmittedOnce (session (step mount (Session.Submit values)))
     = false.
Proof.
  intros values.
  assert (A : Form.activity_type values = lit ""
              /\ Form.course values = Some (lit "")
              /\ Form.professor values = Some (lit "")).
  { subst values. unfold values_after_load, defaultValues.
    destruct fetched; [|repeat split].
    destruct saved as [u|]; [|repeat split].
    destruct (View.truthy (name u) || View.truthy (id u)
              || View.truthy (degree u) || View.truthy (city u)
              || View.truthy (language u)); repeat split. }
  destruct A as (A & C & P). repeat (split; [assumption|]).
  assert (R : exists x e,
             resolver (Session.render (session mount)) values = x :: e).
  { unfold resolver, Form.DocumentBuildSaved.createFormSchema,
      Form.createFormSchema_with, Form.baseSchema. cbn [negb Session.render
      session mount Session.mount Session.r_hasSubmittedOnce
      Session.hasSubmittedOnce].
    rewrite A. cbn. eauto. }
  destruct R as (x & e & R).
  destruct (saved_submit_cases values mount)
    as [[Gen E] | [(Gen & _ & E) | (Gen & R' & _)]];
    [discriminate Gen | | congruence].
  rewrite E. cbn [session assigned Session.errors Session.setErrors
                  Session.pending Session.hasSubmittedOnce mount Session.mount].
  unfold resolver, Form.DocumentBuildSaved.createFormSchema,
    Session.render. cbn [Session.r_hasSubmittedOnce Session.hasSubmittedOnce
    Session.mount].
  destruct (FormSpec.lenient_optional_fields (lit "office-hours-meeting") values)
    as [Lc Lp].
  rewrite Lc, Lp.
  repeat split.
  unfold Form.createFormSchema_with, Form.baseSchema. cbn [negb].
  rewrite !FormSpec.reports_app, !FormSpec.reports_string_min, A.
  reflexivity.
Qed.

End SecondListing.

End SavedSpec.

(** ** The submit handler between its awaits *)

Module SchedulingSpec.

Import Scheduling.

(** The orderly schedule is one of the schedules: a render, the
    submission and its handler run through both awaits do to the
    component what [Session.step] does, and leave no call waiting. *)
Lemma orderly_submit s r values :
  component (run {| component := s; rendered := r; tasks := [] |}
               [Rerender; Submit values; Resume 0; Resume 0])
  = Session.step s (Session.Submit values)
  /\ tasks (run {| component := s; rendered := r; tasks := [] |}
              [Rerender; Submit values; Resume 0; Resume 0])
     = [].
Proof.
  destruct s as [h g er p].
  unfold run, Session.step, Session.handleSubmit, Session.onSubmit,
    Session.trigger.
  cbn [fold_left]. unfold step, resume.
  generalize Session.resolver. intros R.
  destruct g, h; cbn; destruct (R _ values) as [|x e] eqn:E; cbn;
    rewrite ?E; cbn; split; reflexivity.
Qed.


End SchedulingSpec.
